(** * Message-flow coordinator of the support chat backend

    A shallow embedding of [utils/validation.ts], [services/llm.service.ts],
    [services/chat.service.ts], [routes/chat.routes.ts], [index.ts] and
    [middleware/rateLimiter.ts], followed by the properties of the
    coordinator and of its admission layer.

    Conventions.
    - A JavaScript string is a sequence of UTF-16 code units.  The strings
      covered here are those whose code units are below 256, one [ascii]
      per code unit, so [String.length] is the [.length] of the source.
    - An [async] function is a computation in the monad [IO]: it receives
      the world (the two tables of the Record Store and the list of I/O
      calls made so far) and either returns a value or throws.
    - Console output feeds nothing back into the program and is left out. *)

From Stdlib Require Import String Ascii List Bool Arith Lia DecimalString.
From Stdlib Require Import Sorted Permutation.
Import ListNotations.
Local Open Scope string_scope.
Local Open Scope list_scope.
Local Open Scope nat_scope.

(* ================================================================== *)
(** ** JavaScript strings *)
(* ================================================================== *)

Module Js.

(** Code units below 256 that [String.prototype.trim] strips: TAB, LF, VT,
    FF, CR, SPACE and NO-BREAK SPACE. *)
Definition whitespace_codes : list nat := [9; 10; 11; 12; 13; 32; 160].

Definition isWhiteSpace (c : ascii) : bool :=
  existsb (Nat.eqb (nat_of_ascii c)) whitespace_codes.

Fixpoint trimStart (s : string) : string :=
  match s with
  | EmptyString => EmptyString
  | String c rest => if isWhiteSpace c then trimStart rest else s
  end.

Fixpoint trimEnd (s : string) : string :=
  match s with
  | EmptyString => EmptyString
  | String c rest =>
      match trimEnd rest with
      | EmptyString => if isWhiteSpace c then EmptyString else String c EmptyString
      | kept => String c kept
      end
  end.

(** [s.trim()] *)
Definition trim (s : string) : string := trimEnd (trimStart s).

(** [s.toLowerCase()] on code units below 256: A-Z and the Latin-1
    capitals (all of 192..222 but the multiplication sign 215) move up
    by 32. *)
Definition lowerChar (c : ascii) : ascii :=
  let n := nat_of_ascii c in
  if ((65 <=? n) && (n <=? 90))
     || ((192 <=? n) && (n <=? 222) && negb (n =? 215))
  then ascii_of_nat (n + 32) else c.

Fixpoint toLowerCase (s : string) : string :=
  match s with
  | EmptyString => EmptyString
  | String c rest => String (lowerChar c) (toLowerCase rest)
  end.

(** [s.includes(needle)] *)
Fixpoint includes (s needle : string) : bool :=
  String.prefix needle s
  || match s with
     | EmptyString => false
     | String _ rest => includes rest needle
     end.

(** [`${n}`] for a non-negative integer. *)
Definition ofNat (n : nat) : string := NilZero.string_of_uint (Nat.to_uint n).

(** What a handler can see of a request field of type [any]. *)
Inductive Value : Type :=
| Undefined
| Null
| Bool (b : bool)
| Number (n : nat)        (* a number, by magnitude: only zero is falsy *)
| Str (s : string)
| Object.                 (* any object or array *)

(** [!!v] *)
Definition truthy (v : Value) : bool :=
  match v with
  | Undefined | Null => false
  | Bool b => b
  | Number n => negb (n =? 0)
  | Str s => negb (String.eqb s "")
  | Object => true
  end.

(** [typeof v === 'string'] *)
Definition isString (v : Value) : bool :=
  match v with Str _ => true | _ => false end.

(** The string behind a value already known to be one. *)
Definition asString (v : Value) : string :=
  match v with Str s => s | _ => "" end.

(** A thrown value. [OpenAI.APIError] is a subclass of [Error]. *)
Inductive Thrown : Type :=
| Error (message : string)
| APIError (status : option nat) (message : string)
| NotAnError.

(** [e instanceof Error ? e.message : undefined] *)
Definition errorMessage (e : Thrown) : option string :=
  match e with
  | Error m | APIError _ m => Some m
  | NotAnError => None
  end.

(** Normal or abrupt completion of a call. *)
Inductive Completion (A : Type) : Type :=
| Return (a : A)
| Throw (e : Thrown).
Arguments Return {A} a.
Arguments Throw {A} e.

End Js.

Import Js.

(* ================================================================== *)
(** ** utils/validation.ts *)
(* ================================================================== *)

Section Validation.

(** [validate] of the [uuid] package, a dependency of the repository. *)
Variable uuidValidate : string -> bool.

Definition isValidUUID (str : string) : bool := uuidValidate str.

Definition validateSessionId (sessionId : Value) : Completion unit :=
  if negb (truthy sessionId) || negb (isString sessionId)
  then Throw (Error "Session ID is required")
  else if negb (isValidUUID (asString sessionId))
  then Throw (Error "Invalid session ID format")
  else Return tt.

End Validation.

Definition sanitizeErrorMessage (error : Thrown) (isProduction : bool) : string :=
  if isProduction then
    match errorMessage error with
    | Some original =>
        let message := toLowerCase original in
        if includes message "not found" || includes message "conversation not found"
        then "Conversation not found"
        else if includes message "required" || includes message "cannot be empty"
        then original
        else if includes message "api key" || includes message "invalid"
        then "Service configuration error"
        else if includes message "rate limit"
        then "Rate limit exceeded. Please try again later."
        else if includes message "database" || includes message "prisma"
        then "Database error. Please try again later."
        else "An unexpected error occurred. Please try again later."
    | None => "An unexpected error occurred. Please try again later."
    end
  else
    match errorMessage error with
    | Some original => original
    | None => "An unexpected error occurred"
    end.

(* ================================================================== *)
(** ** The world outside the process *)
(* ================================================================== *)

(** [interface Message] of llm.service.ts: one role-tagged turn. *)
Module Role.
Inductive t : Type := system | user | assistant.
End Role.

Module Turn.
Record t : Type := { role : Role.t; content : string }.
End Turn.

(** The part of a chat completion that [generateResponse] reads:
    [response.choices?.[0]] and [choice.message?.content]. *)
Module Completions.
Record ChoiceMessage : Type := { content : option string }.
Record Choice : Type := { message : option ChoiceMessage }.
Record ChatCompletion : Type := { choices : option (list (option Choice)) }.
End Completions.

(** Rows of the two tables of the Record Store. *)
Module Row.
Record Conversation : Type := { id : string; createdAt : nat }.
Record Message : Type :=
  { mid : string; conversationId : string; sender : string;
    text : string; mcreatedAt : nat }.
End Row.

(** One call that leaves the process. *)
Inductive IOCall : Type :=
| ConversationFindUnique (id : string)
| ConversationCreate
| MessageCreate (conversationId sender text : string)
| MessageFindMany (conversationId : string)
| ChatCompletionsCreate (messages : list Turn.t) (max_tokens : nat)
                        (temperature_tenths : nat).

(** The state the process shares with its collaborators: both tables, rows
    in insertion order, and the calls made so far, oldest first. *)
Record World : Type :=
  { conversations : list Row.Conversation;
    messages : list Row.Message;
    calls : list IOCall }.

(** What the collaborators decide.  Every field is indexed by the number
    of calls made before the one it answers. *)
Record Env : Type :=
  { (** [validate] of the [uuid] package *)
    uuidValidate : string -> bool;
    (** the failure with which the Record Store rejects a call, if any
        (lost connection, refused credentials, timeout, ...) *)
    storeFault : nat -> option Thrown;
    (** the identity the Record Store gives a row it creates
        ([@default(uuid())]) *)
    uuid : nat -> string;
    (** the time stamp the Record Store gives a row it creates *)
    clock : nat -> nat;
    (** the answer of the Completion Provider *)
    completion : nat -> list Turn.t -> Completion Completions.ChatCompletion }.

(** An [async] function returning [A]. *)
Definition IO (A : Type) : Type := Env -> World -> Completion A * World.

Definition ret {A} (a : A) : IO A := fun _ w => (Return a, w).

Definition throw {A} (e : Thrown) : IO A := fun _ w => (Throw e, w).

Definition bind {A B} (c : IO A) (k : A -> IO B) : IO B :=
  fun env w =>
    match c env w with
    | (Return a, w') => k a env w'
    | (Throw e, w') => (Throw e, w')
    end.

(** [try { body } catch (error) { handler }] *)
Definition tryCatch {A} (body : IO A) (handler : Thrown -> IO A) : IO A :=
  fun env w =>
    match body env w with
    | (Return a, w') => (Return a, w')
    | (Throw e, w') => handler e env w'
    end.

(** A synchronous call that may throw. *)
Definition lift {A} (c : Completion A) : IO A := fun _ w => (c, w).

Definition ask : IO Env := fun env w => (Return env, w).

Declare Scope io_scope.
Delimit Scope io_scope with io.
Notation "x <- c ;; k" := (bind c (fun x => k))
  (at level 61, c at next level, right associativity) : io_scope.
Notation "c ;; k" := (bind c (fun _ => k))
  (at level 61, right associativity) : io_scope.
Local Open Scope io_scope.

(* ================================================================== *)
(** ** db/prisma.ts: the client of the Record Store *)
(* ================================================================== *)

Module prisma.

Definition logged (c : IOCall) (w : World) : World :=
  {| conversations := conversations w;
     messages := messages w;
     calls := calls w ++ [c] |}.

(** A call to the store: it is logged, then rejected by the store or
    carried out on the tables. *)
Definition call {A} (c : IOCall) (run : nat -> Env -> World -> Completion A * World)
  : IO A :=
  fun env w =>
    let n := length (calls w) in
    match storeFault env n with
    | Some e => (Throw e, logged c w)
    | None => run n env (logged c w)
    end.

Definition hasConversation (id : string) (w : World) : bool :=
  existsb (fun c => String.eqb (Row.id c) id) (conversations w).

Module conversation.

(** [prisma.conversation.findUnique({ where: { id } })] *)
Definition findUnique (id : string) : IO (option Row.Conversation) :=
  call (ConversationFindUnique id)
    (fun _ _ w =>
       (Return (find (fun c => String.eqb (Row.id c) id) (conversations w)), w)).

(** [prisma.conversation.create({})]: the primary key is unique. *)
Definition create : IO Row.Conversation :=
  call ConversationCreate
    (fun n env w =>
       let c := {| Row.id := uuid env n; Row.createdAt := clock env n |} in
       if hasConversation (Row.id c) w
       then (Throw (Error "Unique constraint failed on the fields: (`id`)"), w)
       else (Return c,
             {| conversations := conversations w ++ [c];
                messages := messages w;
                calls := calls w |})).

End conversation.

Module message.

(** [prisma.message.create({ data: { conversationId, sender, text } })]:
    the owner must exist.  The identity of a message is read by nothing
    in the coordinator; a clash on it is one of the faults of [storeFault]. *)
Definition create (conversationId sender text : string) : IO Row.Message :=
  call (MessageCreate conversationId sender text)
    (fun n env w =>
       let m := {| Row.mid := uuid env n; Row.conversationId := conversationId;
                   Row.sender := sender; Row.text := text;
                   Row.mcreatedAt := clock env n |} in
       if negb (hasConversation conversationId w)
       then (Throw (Error "Foreign key constraint violated on the constraint: `Message_conversationId_fkey`"), w)
       else (Return m,
             {| conversations := conversations w;
                messages := messages w ++ [m];
                calls := calls w |})).

(** [orderBy: { createdAt: 'asc' }]: the rows by ascending time stamp.
    Rows with equal stamps are kept in the order they were stored in; the
    store itself promises no order among them. *)
Fixpoint insertByCreatedAt (r : Row.Message) (sorted : list Row.Message)
  : list Row.Message :=
  match sorted with
  | [] => [r]
  | x :: rest =>
      if Row.mcreatedAt r <=? Row.mcreatedAt x then r :: x :: rest
      else x :: insertByCreatedAt r rest
  end.

Fixpoint orderByCreatedAt (rows : list Row.Message) : list Row.Message :=
  match rows with
  | [] => []
  | r :: rest => insertByCreatedAt r (orderByCreatedAt rest)
  end.

(** [prisma.message.findMany({ where: { conversationId },
    orderBy: { createdAt: 'asc' } })] *)
Definition findMany (conversationId : string) : IO (list Row.Message) :=
  call (MessageFindMany conversationId)
    (fun _ _ w =>
       (Return (orderByCreatedAt
                  (filter (fun r => String.eqb (Row.conversationId r) conversationId)
                          (messages w))), w)).

End message.

End prisma.

(* ================================================================== *)
(** ** services/llm.service.ts *)
(* ================================================================== *)

(** [type Sender = 'user' | 'ai'] *)
Inductive Sender : Type := user | ai.

Module HistoryItem.
Record t : Type := { sender : Sender; text : string }.
End HistoryItem.

(** [arr.slice(-n)]: the last [n] elements, all of them when there are
    fewer. *)
Definition sliceLast {A} (n : nat) (arr : list A) : list A :=
  skipn (length arr - n) arr.

Module LLMService.

Definition SYSTEM_PROMPT : string :=
"You are a helpful and friendly customer support agent for an ecommerce store. Your goal is to assist customers with their questions and concerns in a professional, empathetic manner.

Store Information:
- Shipping: We ship to USA, India, and Europe
- Delivery Time: 5-7 business days
- Returns: Accepted within 14 days of purchase
- Support Hours: Monday-Friday, 9am-6pm IST

Guidelines:
- Be concise but thorough
- If you don't know something, acknowledge it and offer to help find the answer
- Always maintain a positive, helpful tone
- Use the customer's name if provided, otherwise use friendly language
- For shipping/returns questions, provide clear information based on the store policies above".

Definition maxTokens : nat := 500.
Definition MAX_HISTORY : nat := 10.
(** [temperature: 0.7], in tenths. *)
Definition temperature_tenths : nat := 7.

Definition EMPTY_FALLBACK : string :=
  "Sorry, I was unable to generate a response. Please try again.".
Definition UNAVAILABLE_FALLBACK : string :=
  "Our support agent is temporarily unavailable. Please try again shortly.".

(** [this.client.chat.completions.create({ model, messages, max_tokens,
    temperature })] *)
Definition chat_completions_create (messages : list Turn.t)
  : IO Completions.ChatCompletion :=
  fun env w =>
    (completion env (length (calls w)) messages,
     prisma.logged (ChatCompletionsCreate messages maxTokens temperature_tenths) w).

(** The turn of one history entry. *)
Definition toTurn (msg : HistoryItem.t) : Turn.t :=
  {| Turn.role := match HistoryItem.sender msg with
                  | user => Role.user
                  | ai => Role.assistant
                  end;
     Turn.content := HistoryItem.text msg |}.

(** The constant [messages] of [generateResponse]. *)
Definition promptMessages (conversationHistory : list HistoryItem.t) : list Turn.t :=
  let recentHistory := sliceLast MAX_HISTORY conversationHistory in
  {| Turn.role := Role.system; Turn.content := SYSTEM_PROMPT |}
    :: map toTurn recentHistory.

(** [response.choices?.[0]] *)
Definition firstChoice (response : Completions.ChatCompletion)
  : option Completions.Choice :=
  match Completions.choices response with
  | Some (c :: _) => c
  | _ => None
  end.

(** [choice.message?.content], with [null] and [undefined] as [None]. *)
Definition choiceContent (choice : Completions.Choice) : option string :=
  match Completions.message choice with
  | Some m => Completions.content m
  | None => None
  end.

(** The code after the provider has answered. *)
Definition readResponse (response : Completions.ChatCompletion) : string :=
  match firstChoice response with
  | None => EMPTY_FALLBACK
  | Some choice =>
      match choiceContent choice with
      | None => EMPTY_FALLBACK
      | Some content =>
          if String.eqb content "" then EMPTY_FALLBACK else trim content
      end
  end.

Definition generateResponse (conversationHistory : list HistoryItem.t) : IO string :=
  tryCatch
    (let messages := promptMessages conversationHistory in
     response <- chat_completions_create messages ;;
     ret (readResponse response))
    (fun error =>
       (* the three status branches only write to the console *)
       ret UNAVAILABLE_FALLBACK).

End LLMService.

(* ================================================================== *)
(** ** services/chat.service.ts *)
(* ================================================================== *)

Module ChatMessage.
Record t : Type := { message : Value; sessionId : Value }.
End ChatMessage.

Module ChatResponse.
Record t : Type := { reply : string; sessionId : string }.
End ChatResponse.

Module HistoryEntry.
Record t : Type := { id : string; sender : Sender; text : string; createdAt : nat }.
End HistoryEntry.

Module ConversationHistory.
Record t : Type := { messages : list HistoryEntry.t; sessionId : string }.
End ConversationHistory.

Module ChatService.

Definition MAX_MESSAGE_LENGTH : nat := 5000.

Definition DATABASE_ERROR : string := "Database error. Please try again later.".

(** [(msg.sender === 'user' || msg.sender === 'ai' ? msg.sender : 'ai')
    as Sender] *)
Definition typedSender (stored : string) : Sender :=
  if String.eqb stored "user" then user
  else if String.eqb stored "ai" then ai
  else ai.

Definition typedHistoryItem (msg : Row.Message) : HistoryItem.t :=
  {| HistoryItem.sender := typedSender (Row.sender msg);
     HistoryItem.text := Row.text msg |}.

(** The test of the [catch] block of [processMessage]. *)
Definition rethrownAsIs (error : Thrown) : bool :=
  match errorMessage error with
  | Some message =>
      includes message "required"
      || includes message "cannot be empty"
      || includes message "exceeds maximum"
      || includes message "API key"
      || includes message "Rate limit"
  | None => false
  end.

(** The block of [processMessage] that assigns [conversationId]. *)
Definition resolveConversation (sessionId : Value) : IO string :=
  if truthy sessionId then
    env <- ask ;;
    lift (validateSessionId (uuidValidate env) sessionId) ;;
    existing <- prisma.conversation.findUnique (asString sessionId) ;;
    match existing with
    | None =>
        newConversation <- prisma.conversation.create ;;
        ret (Row.id newConversation)
    | Some _ => ret (asString sessionId)
    end
  else
    newConversation <- prisma.conversation.create ;;
    ret (Row.id newConversation).

(** The [try] block of [processMessage]. *)
Definition processValidated (trimmedMessage : string) (sessionId : Value)
  : IO ChatResponse.t :=
  conversationId <- resolveConversation sessionId ;;
  prisma.message.create conversationId "user" trimmedMessage ;;
  history <- prisma.message.findMany conversationId ;;
  let typedHistory := map typedHistoryItem history in
  aiReply <- LLMService.generateResponse typedHistory ;;
  prisma.message.create conversationId "ai" aiReply ;;
  ret {| ChatResponse.reply := aiReply; ChatResponse.sessionId := conversationId |}.

Definition processMessage (input : ChatMessage.t) : IO ChatResponse.t :=
  if negb (truthy (ChatMessage.message input))
     || negb (isString (ChatMessage.message input))
  then throw (Error "Message is required and must be a string")
  else
    let trimmedMessage := trim (asString (ChatMessage.message input)) in
    if String.length trimmedMessage =? 0
    then throw (Error "Message cannot be empty")
    else if MAX_MESSAGE_LENGTH <? String.length trimmedMessage
    then throw (Error ("Message exceeds maximum length of "
                       ++ ofNat MAX_MESSAGE_LENGTH ++ " characters")%string)
    else
      tryCatch
        (processValidated trimmedMessage (ChatMessage.sessionId input))
        (fun error =>
           if rethrownAsIs error then throw error
           else throw (Error DATABASE_ERROR)).

Definition typedEntry (msg : Row.Message) : HistoryEntry.t :=
  {| HistoryEntry.id := Row.mid msg;
     HistoryEntry.sender := typedSender (Row.sender msg);
     HistoryEntry.text := Row.text msg;
     HistoryEntry.createdAt := Row.mcreatedAt msg |}.

Definition getConversationHistory (sessionId : Value) : IO ConversationHistory.t :=
  env <- ask ;;
  lift (validateSessionId (uuidValidate env) sessionId) ;;
  tryCatch
    (conversation <- prisma.conversation.findUnique (asString sessionId) ;;
     match conversation with
     | None => throw (Error "Conversation not found")
     | Some _ =>
         messages <- prisma.message.findMany (asString sessionId) ;;
         let typedMessages := map typedEntry messages in
         ret {| ConversationHistory.messages := typedMessages;
                ConversationHistory.sessionId := asString sessionId |}
     end)
    (fun error =>
       match errorMessage error with
       | Some message =>
           if includes message "not found" then throw error
           else throw (Error "Failed to fetch conversation history")
       | None => throw (Error "Failed to fetch conversation history")
       end).

End ChatService.

(* ================================================================== *)
(** ** Requests and responses *)
(* ================================================================== *)

Inductive Method : Type := GET | POST.

Module Body.
Record t : Type := { message : Value; sessionId : Value }.
End Body.

Module Request.
Record t : Type :=
  { method : Method;
    path : list string;          (* the segments of the URL path *)
    body : option Body.t;        (* [req.body], when a parser has set it *)
    ip : option string }.        (* [req.ip] *)
End Request.

Inductive Json : Type :=
| ReplyJson (result : ChatResponse.t)
| HistoryJson (result : ConversationHistory.t)
| ErrorJson (error : string)
| StatusOkJson.

Module Response.
Record t : Type := { status : nat; json : Json }.
End Response.

(** [a || b] *)
Definition orElse (a b : Value) : Value := if truthy a then a else b.

Definition ofOption (o : option string) : Value :=
  match o with Some s => Str s | None => Undefined end.

(* ================================================================== *)
(** ** middleware/rateLimiter.ts *)
(* ================================================================== *)

Module rateLimit.

(** The options of [rateLimit({...})] that the four limiters set or
    inherit. *)
Record Options : Type :=
  { windowMs : nat;
    max : nat;
    message : string;
    keyGenerator : Request.t -> Value;
    skip : Request.t -> bool;
    skipSuccessfulRequests : bool }.

(** Defaults of the package: the key is [req.ip], nothing is skipped. *)
Definition defaultKeyGenerator (req : Request.t) : Value := ofOption (Request.ip req).
Definition defaultSkip (_ : Request.t) : bool := false.

End rateLimit.

Definition apiLimiter : rateLimit.Options :=
  {| rateLimit.windowMs := 15 * 60 * 1000;
     rateLimit.max := 100;
     rateLimit.message := "Too many requests from this IP, please try again later.";
     rateLimit.keyGenerator := rateLimit.defaultKeyGenerator;
     rateLimit.skip := rateLimit.defaultSkip;
     rateLimit.skipSuccessfulRequests := false |}.

Definition chatLimiter : rateLimit.Options :=
  {| rateLimit.windowMs := 15 * 60 * 1000;
     rateLimit.max := 50;
     rateLimit.message := "Too many chat requests, please try again later.";
     rateLimit.keyGenerator := rateLimit.defaultKeyGenerator;
     rateLimit.skip := rateLimit.defaultSkip;
     rateLimit.skipSuccessfulRequests := false |}.

(** [(req.body as any)?.sessionId] *)
Definition bodySessionId (req : Request.t) : Value :=
  match Request.body req with
  | Some b => Body.sessionId b
  | None => Undefined
  end.

Definition sessionLimiter : rateLimit.Options :=
  {| rateLimit.windowMs := 15 * 60 * 1000;
     rateLimit.max := 20;
     rateLimit.message :=
       "Too many requests for this session. Please wait before sending another message.";
     rateLimit.keyGenerator := fun req =>
       let sessionId := bodySessionId req in
       orElse (orElse sessionId (ofOption (Request.ip req))) (Str "unknown");
     rateLimit.skip := fun req =>
       match Request.method req with GET => true | POST => false end;
     rateLimit.skipSuccessfulRequests := false |}.

Definition dailyLimiter : rateLimit.Options :=
  {| rateLimit.windowMs := 24 * 60 * 60 * 1000;
     rateLimit.max := 200;
     rateLimit.message := "Daily request limit exceeded. Please try again tomorrow.";
     rateLimit.keyGenerator := rateLimit.defaultKeyGenerator;
     rateLimit.skip := rateLimit.defaultSkip;
     rateLimit.skipSuccessfulRequests := false |}.

(* ================================================================== *)
(** ** The middleware stack *)
(* ================================================================== *)

Module express.

Inductive Segment : Type := Lit (s : string) | Param (name : string).

(** The three route callbacks of the application. *)
Inductive Handler : Type := HealthCheck | GetHistory | PostMessage.

Inductive Middleware : Type :=
| Cors | Timeout | JsonParser | UrlencodedParser
| Limiter (options : rateLimit.Options).

(** [router.use(mw)] and [router.get/post(path, handler)] *)
Inductive RouterLayer : Type :=
| RouterUse (mw : Middleware)
| RouterRoute (m : Method) (pattern : list Segment) (h : Handler).

(** [app.use(mw)], [app.get(path, handler)] and [app.use(prefix, router)] *)
Inductive AppLayer : Type :=
| AppUse (mw : Middleware)
| AppRoute (m : Method) (pattern : list Segment) (h : Handler)
| AppMount (prefix : list string) (router : list RouterLayer).

Definition methodEqb (a b : Method) : bool :=
  match a, b with GET, GET | POST, POST => true | _, _ => false end.

(** The parameters bound when a pattern matches the whole path. *)
Fixpoint matchPattern (pattern : list Segment) (path : list string)
  : option (list (string * string)) :=
  match pattern, path with
  | [], [] => Some []
  | Lit s :: pattern', seg :: path' =>
      if String.eqb s seg then matchPattern pattern' path' else None
  | Param name :: pattern', seg :: path' =>
      match matchPattern pattern' path' with
      | Some params => Some ((name, seg) :: params)
      | None => None
      end
  | _, _ => None
  end.

Fixpoint stripPrefix (prefix path : list string) : option (list string) :=
  match prefix, path with
  | [], _ => Some path
  | s :: prefix', seg :: path' =>
      if String.eqb s seg then stripPrefix prefix' path' else None
  | _ :: _, [] => None
  end.

(** Where a request ends up and what it went through on the way. *)
Record Trail : Type :=
  { passed : list Middleware;
    target : option (Handler * list (string * string)) }.

Definition through (mw : Middleware) (t : Trail) : Trail :=
  {| passed := mw :: passed t; target := target t |}.

Fixpoint walkRouter (layers : list RouterLayer) (m : Method) (path : list string)
  : Trail :=
  match layers with
  | [] => {| passed := []; target := None |}
  | RouterUse mw :: rest => through mw (walkRouter rest m path)
  | RouterRoute m' pattern h :: rest =>
      match (if methodEqb m m' then matchPattern pattern path else None) with
      | Some params => {| passed := []; target := Some (h, params) |}
      | None => walkRouter rest m path
      end
  end.

Fixpoint walkApp (layers : list AppLayer) (m : Method) (path : list string)
  : Trail :=
  match layers with
  | [] => {| passed := []; target := None |}
  | AppUse mw :: rest => through mw (walkApp rest m path)
  | AppRoute m' pattern h :: rest =>
      match (if methodEqb m m' then matchPattern pattern path else None) with
      | Some params => {| passed := []; target := Some (h, params) |}
      | None => walkApp rest m path
      end
  | AppMount prefix router :: rest =>
      match stripPrefix prefix path with
      | Some sub =>
          let inner := walkRouter router m sub in
          match target inner with
          | Some _ => inner
          | None =>
              let outer := walkApp rest m path in
              {| passed := passed inner ++ passed outer; target := target outer |}
          end
      | None => walkApp rest m path
      end
  end.

(** The rate limiters among the middleware, in the order met. *)
Fixpoint limitersOf (mws : list Middleware) : list rateLimit.Options :=
  match mws with
  | [] => []
  | Limiter o :: rest => o :: limitersOf rest
  | _ :: rest => limitersOf rest
  end.

(** The counters a request is charged on, in order: a limiter whose
    [skip] holds lets the request through uncounted, any other counts it
    under the key of its [keyGenerator]. *)
Definition charges (limiters : list rateLimit.Options) (req : Request.t)
  : list (rateLimit.Options * Value) :=
  map (fun o => (o, rateLimit.keyGenerator o req))
      (filter (fun o => negb (rateLimit.skip o req)) limiters).

End express.

(* ================================================================== *)
(** ** routes/chat.routes.ts *)
(* ================================================================== *)

Module chatRoutes.

(** The test that selects 404 in the history route. *)
Definition historyIsNotFound (error : Thrown) : bool :=
  match errorMessage error with
  | Some message =>
      includes message "not found"
      || includes message "required"
      || includes message "Invalid session ID format"
  | None => false
  end.

(** [router.get('/history/:sessionId', ...)] *)
Definition getHistory (isProduction : bool) (sessionId : string) : IO Response.t :=
  tryCatch
    (env <- ask ;;
     lift (validateSessionId (uuidValidate env) (Str sessionId)) ;;
     result <- ChatService.getConversationHistory (Str sessionId) ;;
     ret {| Response.status := 200; Response.json := HistoryJson result |})
    (fun error =>
       let errorMessage := sanitizeErrorMessage error isProduction in
       let statusCode := if historyIsNotFound error then 404 else 500 in
       ret {| Response.status := statusCode; Response.json := ErrorJson errorMessage |}).

(** The status chosen by the [catch] block of the message route. *)
Definition messageStatusCode (error : Thrown) : nat :=
  match errorMessage error with
  | Some message =>
      let msg := toLowerCase message in
      if includes msg "required" || includes msg "cannot be empty"
         || includes msg "invalid session"
      then 400
      else if includes msg "api key" || includes msg "rate limit"
      then 503
      else if includes msg "exceeds maximum"
      then 400
      else 500
  | None => 500
  end.

(** [router.post('/message', ...)] *)
Definition postMessage (isProduction : bool) (reqBody : option Body.t)
  : IO Response.t :=
  tryCatch
    (body <- match reqBody with
             | Some b => ret b
             | None => throw (Error "Cannot destructure property 'message' of 'req.body' as it is undefined.")
             end ;;
     let message := Body.message body in
     let sessionId := Body.sessionId body in
     (if truthy sessionId then
        env <- ask ;;
        lift (validateSessionId (uuidValidate env) sessionId)
      else ret tt) ;;
     result <- ChatService.processMessage
                 {| ChatMessage.message := message;
                    ChatMessage.sessionId := sessionId |} ;;
     ret {| Response.status := 200; Response.json := ReplyJson result |})
    (fun error =>
       let errorMessage := sanitizeErrorMessage error isProduction in
       ret {| Response.status := messageStatusCode error;
              Response.json := ErrorJson errorMessage |}).

(** The router exported by the file. *)
Definition router : list express.RouterLayer :=
  [ express.RouterUse (express.Limiter dailyLimiter);
    express.RouterUse (express.Limiter chatLimiter);
    express.RouterUse (express.Limiter sessionLimiter);
    express.RouterRoute GET [express.Lit "history"; express.Param "sessionId"]
                        express.GetHistory;
    express.RouterRoute POST [express.Lit "message"] express.PostMessage ].

End chatRoutes.

(* ================================================================== *)
(** ** index.ts *)
(* ================================================================== *)

Definition app : list express.AppLayer :=
  [ express.AppUse express.Cors;
    express.AppUse express.Timeout;
    express.AppUse express.JsonParser;
    express.AppUse express.UrlencodedParser;
    express.AppUse (express.Limiter apiLimiter);
    express.AppRoute GET [express.Lit "health"] express.HealthCheck;
    express.AppMount ["chat"] chatRoutes.router ].

(** The rate limiters a request meets, in order. *)
Definition limitersFor (req : Request.t) : list rateLimit.Options :=
  express.limitersOf
    (express.passed (express.walkApp app (Request.method req) (Request.path req))).

(** The callback that answers a request, if any. *)
Definition handlerFor (req : Request.t) : option express.Handler :=
  option_map fst
    (express.target (express.walkApp app (Request.method req) (Request.path req))).

(** What [generateResponse] makes of the provider's answer. *)
Definition replyOf (outcome : Completion Completions.ChatCompletion) : string :=
  match outcome with
  | Return response => LLMService.readResponse response
  | Throw _ => LLMService.UNAVAILABLE_FALLBACK
  end.

(** The turn the provider is sent for a stored row. *)
Definition turnOfRow (r : Row.Message) : Turn.t :=
  {| Turn.role := if String.eqb (Row.sender r) "user" then Role.user
                  else Role.assistant;
     Turn.content := Row.text r |}.

Definition systemTurn : Turn.t :=
  {| Turn.role := Role.system; Turn.content := LLMService.SYSTEM_PROMPT |}.

(* ================================================================== *)
(** ** Sample collaborators *)
(* ================================================================== *)

Module Sample.

Definition isHexDigit (c : ascii) : bool :=
  let n := nat_of_ascii c in
  ((48 <=? n) && (n <=? 57)) || ((97 <=? n) && (n <=? 102))
  || ((65 <=? n) && (n <=? 70)).

(** The 8-4-4-4-12 shape of a UUID. *)
Fixpoint hasShape (groups : list nat) (s : string) : bool :=
  match groups with
  | [] => String.eqb s ""
  | 0 :: [] => String.eqb s ""
  | 0 :: rest =>
      match s with
      | String "-" s' => hasShape rest s'
      | _ => false
      end
  | S k :: rest =>
      match s with
      | String c s' => isHexDigit c && hasShape (k :: rest) s'
      | EmptyString => false
      end
  end.

Definition validate (s : string) : bool := hasShape [8; 4; 4; 4; 12] s.

Fixpoint zeros (n : nat) : string :=
  match n with 0 => "" | S k => String "0" (zeros k) end.

(** The [n]-th identity of a store that numbers its rows. *)
Definition nthUuid (n : nat) : string :=
  let digits := ofNat n in
  ("00000000-0000-4000-8000-" ++ zeros (12 - String.length digits) ++ digits)%string.

Definition answer (text : option string) : Completions.ChatCompletion :=
  {| Completions.choices :=
       Some [Some {| Completions.message :=
                       Some {| Completions.content := text |} |}] |}.

(** A store that never fails and a provider that answers [text]. *)
Definition env (text : option string) : Env :=
  {| uuidValidate := validate;
     storeFault := fun _ => None;
     uuid := nthUuid;
     clock := fun n => 1000 + n;
     completion := fun _ _ => Return (answer text) |}.

(** The same store, rejecting its [k]-th call with [e]. *)
Definition failingAt (k : nat) (e : Thrown) : Env :=
  {| uuidValidate := validate;
     storeFault := fun n => if n =? k then Some e else None;
     uuid := nthUuid;
     clock := fun n => 1000 + n;
     completion := fun _ _ => Return (answer (Some "We ship to USA, India, and Europe.")) |}.

(** The same store, with a provider that is down. *)
Definition providerDown (status : option nat) : Env :=
  {| uuidValidate := validate;
     storeFault := fun _ => None;
     uuid := nthUuid;
     clock := fun n => 1000 + n;
     completion := fun _ _ => Throw (APIError status "Service Unavailable") |}.

Definition emptyWorld : World :=
  {| conversations := []; messages := []; calls := [] |}.

Definition send (message : string) (sessionId : Value) : ChatMessage.t :=
  {| ChatMessage.message := Str message; ChatMessage.sessionId := sessionId |}.

End Sample.

(** A store whose clock has been set back: one conversation holding ten
    rows stamped 5000 to 5009, met by the sample collaborators, which
    stamp what they create from 1000 on. *)
Definition staleRows (cid : string) : list Row.Message :=
  map (fun k =>
         {| Row.mid := Sample.nthUuid (100 + k);
            Row.conversationId := cid;
            Row.sender := if Nat.even k then "user" else "ai";
            Row.text := ("earlier " ++ ofNat k)%string;
            Row.mcreatedAt := 5000 + k |})
      (seq 0 10).

Definition staleWorld : World :=
  {| conversations := [{| Row.id := Sample.nthUuid 50; Row.createdAt := 4999 |}];
     messages := staleRows (Sample.nthUuid 50);
     calls := [] |}.

(** [a] is stamped no later than [b]. *)
Definition stampedBefore (a b : Row.Message) : Prop :=
  Row.mcreatedAt a <= Row.mcreatedAt b.

(** [a] is stamped earlier than [b]. *)
Definition stampedStrictlyBefore (a b : Row.Message) : Prop :=
  Row.mcreatedAt a < Row.mcreatedAt b.

(* ================================================================== *)
(** ** frontend/lib/api.ts: the client of the two routes *)
(* ================================================================== *)

Module apiClient.

(** [error.response]: the status and the [error] field of the body,
    [(error.response.data as any)?.error]. *)
Record AxiosResponse : Type := { status : nat; dataError : Value }.

Record AxiosError : Type :=
  { response : option AxiosResponse;
    message : string }.

Definition NETWORK_ERROR : string := "Network error. Please check your connection.".
Definition NOT_FOUND : string := "Resource not found".
Definition TOO_MANY : string := "Too many requests. Please try again later.".
Definition SERVER_ERROR : string := "Server error. Please try again later.".

(** The second callback of [apiClient.interceptors.response.use]: the
    argument of the [new Error(...)] it rejects with. *)
Definition onResponseError (error : AxiosError) : Value :=
  match response error with
  | None => Str NETWORK_ERROR
  | Some r =>
      let errorMessage := orElse (dataError r) (Str (message error)) in
      if status r =? 404 then Str NOT_FOUND
      else if status r =? 429 then Str TOO_MANY
      else if 500 <=? status r then Str SERVER_ERROR
      else orElse errorMessage (Str "An unexpected error occurred")
  end.

End apiClient.

(** The [error] field of a body sent by one of the two routes. *)
Definition errorField (j : Json) : Value :=
  match j with
  | ErrorJson e => Str e
  | _ => Undefined
  end.

(** What the client holds when a route has answered outside 2xx. *)
Definition rejection (r : Response.t) (axiosMessage : string) : apiClient.AxiosError :=
  {| apiClient.response :=
       Some {| apiClient.status := Response.status r;
               apiClient.dataError := errorField (Response.json r) |};
     apiClient.message := axiosMessage |}.

(* ================================================================== *)
(** ** Relations between worlds *)
(* ================================================================== *)

(** At most [c] conversations and [m] messages have been added, after
    the earlier rows, and nothing else has changed in the tables. *)
Definition adds (c m : nat) (w w' : World) : Prop :=
  exists cs ms,
    conversations w' = conversations w ++ cs /\ length cs <= c
    /\ messages w' = messages w ++ ms /\ length ms <= m.

(** Every run of [p], returning or throwing, adds at most that much. *)
Definition addsAtMost (c m : nat) {A} (p : IO A) : Prop :=
  forall env w, adds c m w (snd (p env w)).

(** Both tables are as they were. *)
Definition sameTables (w w' : World) : Prop :=
  conversations w' = conversations w /\ messages w' = messages w.

(** Every run of [c], returning or throwing, relates the world it
    starts in to the world it ends in. *)
Definition keeps (R : World -> World -> Prop) {A} (c : IO A) : Prop :=
  forall env w, R w (snd (c env w)).

(** A text made of white space only. *)
Fixpoint allWhiteSpace (s : string) : bool :=
  match s with
  | EmptyString => true
  | String c rest => isWhiteSpace c && allWhiteSpace rest
  end.

(* ================================================================== *)
(** * Properties *)
(* ================================================================== *)

(** ** The monad *)

Lemma bind_Return_inv {A B} (c : IO A) (k : A -> IO B) env w b w' :
  bind c k env w = (Return b, w') ->
  exists a w1, c env w = (Return a, w1) /\ k a env w1 = (Return b, w').
Proof.
  unfold bind. destruct (c env w) as [[a | e] w1]; intros H.
  - exists a, w1. split; [reflexivity | exact H].
  - discriminate H.
Qed.

Lemma bind_Return {A B} (c : IO A) (k : A -> IO B) env w a w1 :
  c env w = (Return a, w1) -> bind c k env w = k a env w1.
Proof. unfold bind. intros ->. reflexivity. Qed.

Lemma bind_Throw {A B} (c : IO A) (k : A -> IO B) env w e w1 :
  c env w = (Throw e, w1) -> bind c k env w = (Throw e, w1).
Proof. unfold bind. intros ->. reflexivity. Qed.

(** A [catch] block that always throws lets a value out only when the
    [try] block returned it. *)
Lemma tryCatch_Return_inv {A} (body : IO A) (handler : Thrown -> IO A) env w a w' :
  (forall e env1 w1 b w2, handler e env1 w1 <> (Return b, w2)) ->
  tryCatch body handler env w = (Return a, w') ->
  body env w = (Return a, w').
Proof.
  unfold tryCatch. intros Hh. destruct (body env w) as [[b | e] w1]; intros H.
  - exact H.
  - exfalso. exact (Hh _ _ _ _ _ H).
Qed.

(** ** The Record Store *)

Lemma call_Return_inv {A} (c : IOCall) run env w (a : A) w' :
  prisma.call c run env w = (Return a, w') ->
  storeFault env (length (calls w)) = None
  /\ run (length (calls w)) env (prisma.logged c w) = (Return a, w').
Proof.
  unfold prisma.call. destruct (storeFault env (length (calls w))); intros H.
  - discriminate H.
  - split; [reflexivity | exact H].
Qed.

Lemma call_served {A} (c : IOCall) (run : nat -> Env -> World -> Completion A * World)
      env w :
  storeFault env (length (calls w)) = None ->
  prisma.call c run env w = run (length (calls w)) env (prisma.logged c w).
Proof. unfold prisma.call. intros ->. reflexivity. Qed.

Lemma call_rejected {A} (c : IOCall) (run : nat -> Env -> World -> Completion A * World)
      env w e :
  storeFault env (length (calls w)) = Some e ->
  prisma.call c run env w = (Throw e, prisma.logged c w).
Proof. unfold prisma.call. intros ->. reflexivity. Qed.

Lemma findUnique_Return_inv id env w r w' :
  prisma.conversation.findUnique id env w = (Return r, w') ->
  w' = prisma.logged (ConversationFindUnique id) w
  /\ (r = None <-> prisma.hasConversation id w = false).
Proof.
  intros H. apply call_Return_inv in H. destruct H as [_ H].
  injection H as Hr Hw. split; [symmetry; exact Hw |].
  subst r. unfold prisma.hasConversation. cbn [conversations prisma.logged].
  induction (conversations w) as [| c cs IH]; cbn.
  - tauto.
  - destruct (String.eqb (Row.id c) id); cbn; [| exact IH].
    split; discriminate.
Qed.

Lemma hasConversation_logged id c w :
  prisma.hasConversation id (prisma.logged c w) = prisma.hasConversation id w.
Proof. reflexivity. Qed.

Lemma hasConversation_app id w cs :
  prisma.hasConversation id
    {| conversations := conversations w ++ cs; messages := messages w; calls := calls w |}
  = prisma.hasConversation id w
    || existsb (fun c => String.eqb (Row.id c) id) cs.
Proof. unfold prisma.hasConversation. cbn. apply existsb_app. Qed.

Lemma conversation_create_Return_inv env w c w' :
  prisma.conversation.create env w = (Return c, w') ->
  let n := length (calls w) in
  c = {| Row.id := uuid env n; Row.createdAt := clock env n |}
  /\ prisma.hasConversation (Row.id c) w = false
  /\ w' = {| conversations := conversations w ++ [c];
             messages := messages w;
             calls := calls w ++ [ConversationCreate] |}.
Proof.
  intros H. apply call_Return_inv in H. destruct H as [_ H].
  cbn [Row.id] in H. rewrite hasConversation_logged in H.
  destruct (prisma.hasConversation (uuid env (length (calls w))) w) eqn:Hnew.
  - discriminate H.
  - injection H as Hc Hw. subst c w'. cbn. auto.
Qed.

Lemma message_create_Return_inv conversationId sender text env w m w' :
  prisma.message.create conversationId sender text env w = (Return m, w') ->
  let n := length (calls w) in
  m = {| Row.mid := uuid env n; Row.conversationId := conversationId;
         Row.sender := sender; Row.text := text; Row.mcreatedAt := clock env n |}
  /\ prisma.hasConversation conversationId w = true
  /\ w' = {| conversations := conversations w;
             messages := messages w ++ [m];
             calls := calls w ++ [MessageCreate conversationId sender text] |}.
Proof.
  intros H. apply call_Return_inv in H. destruct H as [_ H].
  rewrite hasConversation_logged in H.
  destruct (prisma.hasConversation conversationId w) eqn:Hown; cbn in H.
  - injection H as Hm Hw. subst m w'. cbn. auto.
  - discriminate H.
Qed.

Lemma findMany_Return_inv conversationId env w rows w' :
  prisma.message.findMany conversationId env w = (Return rows, w') ->
  rows = prisma.message.orderByCreatedAt
           (filter (fun r => String.eqb (Row.conversationId r) conversationId)
                   (messages w))
  /\ w' = prisma.logged (MessageFindMany conversationId) w.
Proof.
  intros H. apply call_Return_inv in H. destruct H as [_ H].
  injection H as Hr Hw. subst. auto.
Qed.

(** ** The completion step *)

Lemma generateResponse_spec history env w :
  LLMService.generateResponse history env w
  = (Return (replyOf (completion env (length (calls w))
                                 (LLMService.promptMessages history))),
     prisma.logged (ChatCompletionsCreate (LLMService.promptMessages history)
                                          LLMService.maxTokens
                                          LLMService.temperature_tenths) w).
Proof.
  unfold LLMService.generateResponse, tryCatch, bind,
    LLMService.chat_completions_create, ret, replyOf.
  destruct (completion env (length (calls w)) (LLMService.promptMessages history));
    reflexivity.
Qed.

(** [generateResponse] never throws, whatever the provider does. *)
Lemma generateResponse_never_throws history env w :
  exists reply w', LLMService.generateResponse history env w = (Return reply, w').
Proof. rewrite generateResponse_spec. eauto. Qed.

(** A provider that rejects the call, or answers without usable content,
    yields one of the two fixed fallback texts. *)
Lemma replyOf_fallback outcome :
  match outcome with
  | Throw _ => True
  | Return response =>
      match LLMService.firstChoice response with
      | None => True
      | Some choice =>
          LLMService.choiceContent choice = None
          \/ LLMService.choiceContent choice = Some ""
      end
  end ->
  replyOf outcome = LLMService.UNAVAILABLE_FALLBACK
  \/ replyOf outcome = LLMService.EMPTY_FALLBACK.
Proof.
  destruct outcome as [response | e]; cbn; [| auto].
  unfold LLMService.readResponse.
  destruct (LLMService.firstChoice response) as [choice |]; [| auto].
  intros [-> | ->]; auto.
Qed.

Lemma toTurn_typed r :
  LLMService.toTurn (ChatService.typedHistoryItem r) = turnOfRow r.
Proof.
  unfold LLMService.toTurn, ChatService.typedHistoryItem, turnOfRow,
    ChatService.typedSender. cbn.
  destruct (String.eqb (Row.sender r) "user"); [reflexivity |].
  destruct (String.eqb (Row.sender r) "ai"); reflexivity.
Qed.

Lemma promptMessages_typed rows :
  LLMService.promptMessages (map ChatService.typedHistoryItem rows)
  = systemTurn :: map turnOfRow (sliceLast LLMService.MAX_HISTORY rows).
Proof.
  unfold LLMService.promptMessages, sliceLast, systemTurn. f_equal.
  rewrite length_map, skipn_map, map_map.
  apply map_ext. exact toTurn_typed.
Qed.

Lemma sliceLast_length {A} n (l : list A) :
  length (sliceLast n l) = Nat.min n (length l).
Proof. unfold sliceLast. rewrite length_skipn. lia. Qed.

Lemma sliceLast_snoc {A} n (l : list A) x :
  exists kept, sliceLast (S n) (l ++ [x]) = kept ++ [x].
Proof.
  unfold sliceLast. rewrite length_app. cbn [length].
  replace (length l + 1 - S n) with (length l - n) by lia.
  rewrite skipn_app.
  replace (length l - n - length l) with 0 by lia.
  cbn [skipn]. eauto.
Qed.


(** ** Validation of the message *)

Lemma truthy_Str s : truthy (Str s) = true <-> s <> "".
Proof.
  cbn. destruct (String.eqb_spec s ""); cbn; split; congruence.
Qed.

Lemma length_zero_iff (s : string) : (String.length s =? 0) = true <-> s = "".
Proof.
  destruct s; cbn; split; congruence.
Qed.

Lemma trim_empty : trim "" = "".
Proof. reflexivity. Qed.

Lemma length_message_text :
  ("Message exceeds maximum length of "
   ++ ofNat ChatService.MAX_MESSAGE_LENGTH ++ " characters")%string
  = "Message exceeds maximum length of 5000 characters".
Proof. reflexivity. Qed.

(** C6. A message that is missing, not a string or empty is refused as
    required; one that is blank once trimmed is refused as empty; one
    longer than 5000 code units once trimmed is refused for its length.
    In all three cases the world is left as it was: no row is created and
    no call leaves the process. *)
Theorem invalid_message_refused_before_any_io (input : ChatMessage.t) env w :
  let message := ChatMessage.message input in
  (truthy message = false \/ isString message = false ->
   ChatService.processMessage input env w
   = (Throw (Error "Message is required and must be a string"), w))
  /\ (forall m, message = Str m -> m <> "" -> trim m = "" ->
      ChatService.processMessage input env w
      = (Throw (Error "Message cannot be empty"), w))
  /\ (forall m, message = Str m -> 5000 < String.length (trim m) ->
      ChatService.processMessage input env w
      = (Throw (Error "Message exceeds maximum length of 5000 characters"), w)).
Proof.
  intros message. unfold ChatService.processMessage. fold message.
  split; [| split].
  - intros [H | H]; rewrite H; cbn; [reflexivity |].
    rewrite orb_true_r. reflexivity.
  - intros m Hm Hne Hblank. rewrite Hm.
    apply truthy_Str in Hne. rewrite Hne. cbn [negb orb isString asString].
    rewrite Hblank. reflexivity.
  - intros m Hm Hlong. rewrite Hm.
    assert (Hne : m <> "").
    { intros ->. rewrite trim_empty in Hlong. cbn in Hlong. lia. }
    apply truthy_Str in Hne. rewrite Hne. cbn [negb orb isString asString].
    destruct (String.length (trim m) =? 0) eqn:Hz.
    + apply Nat.eqb_eq in Hz. lia.
    + apply Nat.ltb_lt in Hlong. unfold ChatService.MAX_MESSAGE_LENGTH at 1.
      rewrite Hlong, length_message_text. reflexivity.
Qed.

Lemma invalid_message_refused_witness :
  ChatService.processMessage
    {| ChatMessage.message := Undefined; ChatMessage.sessionId := Undefined |}
    (Sample.env None) Sample.emptyWorld
  = (Throw (Error "Message is required and must be a string"), Sample.emptyWorld)
  /\ ChatService.processMessage (Sample.send "   " Undefined)
       (Sample.env None) Sample.emptyWorld
     = (Throw (Error "Message cannot be empty"), Sample.emptyWorld)
  /\ ChatService.processMessage
       (Sample.send (String "a" (Sample.zeros 5000)) Undefined)
       (Sample.env None) Sample.emptyWorld
     = (Throw (Error "Message exceeds maximum length of 5000 characters"),
        Sample.emptyWorld).
Proof.
  split; [| split].
  - apply (invalid_message_refused_before_any_io
             {| ChatMessage.message := Undefined; ChatMessage.sessionId := Undefined |}).
    left. reflexivity.
  - apply (invalid_message_refused_before_any_io (Sample.send "   " Undefined))
      with (m := "   "); [reflexivity | discriminate | reflexivity].
  - apply (invalid_message_refused_before_any_io
             (Sample.send (String "a" (Sample.zeros 5000)) Undefined))
      with (m := String "a" (Sample.zeros 5000)); [reflexivity |].
    vm_compute. repeat constructor.
Defined.

(** ** What [processMessage] throws *)

(** The [catch] block of [processMessage] always throws. *)
Lemma processMessage_handler_throws error env w :
  exists e,
    (if ChatService.rethrownAsIs error then throw error
     else throw (Error ChatService.DATABASE_ERROR)) env w
    = (@Throw ChatResponse.t e, w)
    /\ (e = Error ChatService.DATABASE_ERROR \/ (e = error /\ ChatService.rethrownAsIs e = true)).
Proof.
  destruct (ChatService.rethrownAsIs error) eqn:H.
  - exists error. split; [reflexivity | right; auto].
  - exists (Error ChatService.DATABASE_ERROR). split; [reflexivity | left; reflexivity].
Qed.

(** Past the validation of the message, [processMessage] is its [try]
    block under its [catch] block. *)
Lemma processMessage_valid input env w m :
  ChatMessage.message input = Str m ->
  trim m <> "" ->
  String.length (trim m) <= 5000 ->
  ChatService.processMessage input env w
  = tryCatch
      (ChatService.processValidated (trim m) (ChatMessage.sessionId input))
      (fun error =>
         if ChatService.rethrownAsIs error then throw error
         else throw (Error ChatService.DATABASE_ERROR)) env w.
Proof.
  intros Hm Hne Hlen. unfold ChatService.processMessage. rewrite Hm.
  assert (Hm' : m <> "") by (intros ->; apply Hne; reflexivity).
  apply truthy_Str in Hm'. rewrite Hm'. cbn [negb orb isString asString].
  destruct (String.length (trim m) =? 0) eqn:Hz.
  - apply length_zero_iff in Hz. contradiction.
  - unfold ChatService.MAX_MESSAGE_LENGTH.
    destruct (5000 <? String.length (trim m)) eqn:Hl; [| reflexivity].
    apply Nat.ltb_lt in Hl. lia.
Qed.

(** Every error [processMessage] throws is one of the three refusals of
    the message, the opaque storage failure, or an error whose own text
    passes the test of the [catch] block. *)
Lemma processMessage_throws_classified input env w e w' :
  ChatService.processMessage input env w = (Throw e, w') ->
  e = Error "Message is required and must be a string"
  \/ e = Error "Message cannot be empty"
  \/ e = Error "Message exceeds maximum length of 5000 characters"
  \/ e = Error ChatService.DATABASE_ERROR
  \/ ChatService.rethrownAsIs e = true.
Proof.
  unfold ChatService.processMessage.
  destruct (negb (truthy (ChatMessage.message input))
            || negb (isString (ChatMessage.message input))).
  { intros H. injection H as He _. auto. }
  destruct (String.length (trim (asString (ChatMessage.message input))) =? 0).
  { intros H. injection H as He _. auto. }
  destruct (ChatService.MAX_MESSAGE_LENGTH
            <? String.length (trim (asString (ChatMessage.message input)))).
  { intros H. rewrite length_message_text in H. injection H as He _. auto 6. }
  unfold tryCatch.
  destruct (ChatService.processValidated _ _ env w) as [[r | error] w1].
  { discriminate. }
  destruct (processMessage_handler_throws error env w1) as [e' [Heq Hcase]].
  rewrite Heq. intros H. injection H as He _. subst e'.
  destruct Hcase as [-> | [_ Hre]]; auto 6.
Qed.

(** A failure of the store whose text holds none of the five marked
    words reaches the caller as the opaque storage failure. *)
Lemma store_failure_wrapped m env w e :
  trim m <> "" ->
  String.length (trim m) <= 5000 ->
  storeFault env (length (calls w)) = Some e ->
  ChatService.rethrownAsIs e = false ->
  fst (ChatService.processMessage (Sample.send m Undefined) env w)
  = Throw (Error ChatService.DATABASE_ERROR).
Proof.
  intros Hne Hlen Hfault Hplain.
  rewrite (processMessage_valid (Sample.send m Undefined) env w m eq_refl Hne Hlen).
  unfold tryCatch, ChatService.processValidated, ChatService.resolveConversation.
  cbn [Sample.send ChatMessage.sessionId truthy].
  unfold bind, prisma.conversation.create.
  rewrite (call_rejected _ _ env w e Hfault), Hplain. reflexivity.
Qed.

(** The malformed identity is refused inside the [try] block, and the
    text of that refusal holds none of the five marked words. *)
Lemma processMessage_malformed_session m s env w :
  trim m <> "" ->
  String.length (trim m) <= 5000 ->
  s <> "" ->
  uuidValidate env s = false ->
  ChatService.processMessage (Sample.send m (Str s)) env w
  = (Throw (Error "Database error. Please try again later."), w).
Proof.
  intros Hne Hlen Hs Hbad.
  rewrite (processMessage_valid (Sample.send m (Str s)) env w m eq_refl Hne Hlen).
  unfold tryCatch, ChatService.processValidated, ChatService.resolveConversation.
  cbn [Sample.send ChatMessage.sessionId].
  apply truthy_Str in Hs. rewrite Hs.
  unfold bind, ask, lift, validateSessionId, isValidUUID.
  rewrite Hs. cbn [negb orb isString asString]. rewrite Hbad. reflexivity.
Qed.

(** The message route validates the identity itself, before the service
    is called: there the malformed identity is answered with status 400. *)
Lemma postMessage_malformed_session isProduction b s env w :
  Body.sessionId b = Str s ->
  s <> "" ->
  uuidValidate env s = false ->
  chatRoutes.postMessage isProduction (Some b) env w
  = (Return {| Response.status := 400;
               Response.json :=
                 ErrorJson (if isProduction then "Service configuration error"
                            else "Invalid session ID format") |}, w).
Proof.
  intros Hb Hs Hbad. unfold chatRoutes.postMessage, tryCatch, bind, ret.
  rewrite Hb. apply truthy_Str in Hs. rewrite Hs.
  unfold ask, lift, validateSessionId, isValidUUID.
  rewrite Hs. cbn [negb orb isString asString]. rewrite Hbad.
  destruct isProduction; reflexivity.
Qed.

(** Called directly, without the check the route makes first,
    [processMessage] turns the refusal of a malformed identity into the
    storage failure. *)
Example malformed_session_surfaces_as_storage_failure :
  Sample.validate "not-a-uuid" = false
  /\ ChatService.processMessage (Sample.send "hi" (Str "not-a-uuid"))
       (Sample.env (Some "Hello")) Sample.emptyWorld
     = (Throw (Error "Database error. Please try again later."), Sample.emptyWorld)
  /\ validateSessionId Sample.validate (Str "not-a-uuid")
     = Throw (Error "Invalid session ID format").
Proof. repeat split. Qed.




(** C7 (the code departs from it). A failure of the store whose text
    holds the word [required] passes the [catch] block untouched and
    reaches the caller with the store's own detail. *)
Theorem store_failure_detail_reaches_caller :
  let fault := Error "SSL connection is required. Please specify SSL options and retry." in
  ChatService.processMessage (Sample.send "hi" Undefined)
    (Sample.failingAt 0 fault) Sample.emptyWorld
  = (Throw fault,
     {| conversations := []; messages := []; calls := [ConversationCreate] |})
  /\ fault <> Error ChatService.DATABASE_ERROR.
Proof. split; [reflexivity | discriminate]. Qed.

(** C1 (the code departs from it). A provider that answers with blank
    text makes [processMessage] return, and store, an empty reply. *)
Theorem blank_completion_gives_empty_reply :
  let outcome :=
    ChatService.processMessage (Sample.send "hi" Undefined)
      (Sample.env (Some "   ")) Sample.emptyWorld in
  fst outcome = Return {| ChatResponse.reply := "";
                          ChatResponse.sessionId := Sample.nthUuid 0 |}
  /\ map Row.sender (messages (snd outcome)) = ["user"; "ai"]
  /\ map Row.text (messages (snd outcome)) = ["hi"; ""].
Proof. repeat split. Qed.

(** Blank text passes the test for empty content and is trimmed to
    nothing afterwards. *)
Lemma replyOf_blank content :
  content <> "" -> trim content = "" ->
  replyOf (Return (Sample.answer (Some content))) = "".
Proof.
  intros Hne Hblank. cbn. unfold LLMService.readResponse. cbn.
  apply String.eqb_neq in Hne. rewrite Hne. exact Hblank.
Qed.

(** ** A call of [processMessage] that returns *)

(** How [conversationId] was obtained: no identity was supplied and a
    conversation was created; or the supplied identity was found; or it
    was well formed, unknown, and a conversation was created. *)
Lemma resolveConversation_Return_inv sessionId env w cid w1 :
  ChatService.resolveConversation sessionId env w = (Return cid, w1) ->
  let n := length (calls w) in
  (truthy sessionId = false
   /\ cid = uuid env n
   /\ prisma.hasConversation cid w = false
   /\ w1 = {| conversations :=
                conversations w ++ [{| Row.id := cid; Row.createdAt := clock env n |}];
              messages := messages w;
              calls := calls w ++ [ConversationCreate] |})
  \/ (truthy sessionId = true
      /\ validateSessionId (uuidValidate env) sessionId = Return tt
      /\ cid = asString sessionId
      /\ prisma.hasConversation cid w = true
      /\ w1 = prisma.logged (ConversationFindUnique cid) w)
  \/ (truthy sessionId = true
      /\ validateSessionId (uuidValidate env) sessionId = Return tt
      /\ prisma.hasConversation (asString sessionId) w = false
      /\ cid = uuid env (S n)
      /\ prisma.hasConversation cid w = false
      /\ w1 = {| conversations :=
                   conversations w
                   ++ [{| Row.id := cid; Row.createdAt := clock env (S n) |}];
                 messages := messages w;
                 calls := calls w
                          ++ [ConversationFindUnique (asString sessionId);
                              ConversationCreate] |}).
Proof.
  intros H n. unfold ChatService.resolveConversation in H.
  destruct (truthy sessionId) eqn:Ht.
  - right.
    apply bind_Return_inv in H. destruct H as [env' [w0 [Hask H]]].
    injection Hask as <- <-.
    apply bind_Return_inv in H. destruct H as [[] [w0 [Hval H]]].
    unfold lift in Hval. injection Hval as Hval <-.
    apply bind_Return_inv in H. destruct H as [existing [w2 [Hfind H]]].
    apply findUnique_Return_inv in Hfind. destruct Hfind as [-> Hnone].
    destruct existing as [c |].
    + left. injection H as <- <-.
      repeat split; try assumption; try reflexivity.
      destruct (prisma.hasConversation (asString sessionId) w) eqn:Hhas;
        [reflexivity |].
      destruct Hnone as [_ Hnone]. discriminate (Hnone eq_refl).
    + right.
      apply bind_Return_inv in H. destruct H as [c [w3 [Hcreate H]]].
      apply conversation_create_Return_inv in Hcreate.
      destruct Hcreate as [Hc [Hnew Hw3]].
      injection H as <- <-. subst c w3.
      cbn [Row.id] in *. rewrite hasConversation_logged in Hnew.
      cbn [prisma.logged calls conversations messages] in *.
      rewrite length_app in *. cbn [length] in *.
      replace (length (calls w) + 1) with (S n) in * by (unfold n; lia).
      rewrite <- app_assoc. cbn [app].
      repeat split; try assumption; try reflexivity.
      apply Hnone. reflexivity.
  - left.
    apply bind_Return_inv in H. destruct H as [c [w3 [Hcreate H]]].
    apply conversation_create_Return_inv in Hcreate.
    destruct Hcreate as [Hc [Hnew Hw3]].
    injection H as <- <-. subst c w3. cbn [Row.id] in *.
    repeat split; try assumption; reflexivity.
Qed.

(** Whichever way it was obtained, the conversation exists by then, the
    table of messages is untouched, and only the store has been called. *)
Lemma resolveConversation_Return_summary sessionId env w cid w1 :
  ChatService.resolveConversation sessionId env w = (Return cid, w1) ->
  prisma.hasConversation cid w1 = true
  /\ messages w1 = messages w
  /\ exists pre,
       calls w1 = calls w ++ pre
       /\ Forall (fun c => c = ConversationCreate
                           \/ exists id, c = ConversationFindUnique id) pre.
Proof.
  intros H. apply resolveConversation_Return_inv in H.
  destruct H as [[_ [_ [_ ->]]] | [[_ [_ [_ [Hhas ->]]]] | [_ [_ [_ [_ [_ ->]]]]]]].
  - split; [| split; [reflexivity |]].
    + unfold prisma.hasConversation. cbn [conversations].
      rewrite existsb_app. cbn. rewrite String.eqb_refl.
      rewrite orb_true_r. reflexivity.
    + exists [ConversationCreate]. split; [reflexivity |].
      repeat constructor.
  - split; [exact Hhas | split; [reflexivity |]].
    exists [ConversationFindUnique cid]. split; [reflexivity |].
    constructor; [right; eauto | constructor].
  - split; [| split; [reflexivity |]].
    + unfold prisma.hasConversation. cbn [conversations].
      rewrite existsb_app. cbn. rewrite String.eqb_refl.
      rewrite orb_true_r. reflexivity.
    + eexists. split; [reflexivity |].
      constructor; [right; eauto |]. constructor; [left; reflexivity | constructor].
Qed.

(** The four calls that follow, and the two rows they leave. *)
Lemma processValidated_Return_inv trimmed sessionId env w r w' :
  ChatService.processValidated trimmed sessionId env w = (Return r, w') ->
  exists w1,
    ChatService.resolveConversation sessionId env w
    = (Return (ChatResponse.sessionId r), w1)
    /\ let cid := ChatResponse.sessionId r in
       let n := length (calls w1) in
       let userRow :=
         {| Row.mid := uuid env n; Row.conversationId := cid;
            Row.sender := "user"; Row.text := trimmed;
            Row.mcreatedAt := clock env n |} in
       let loaded :=
         prisma.message.orderByCreatedAt
           (filter (fun m => String.eqb (Row.conversationId m) cid)
                   (messages w1 ++ [userRow])) in
       let turns :=
         LLMService.promptMessages (map ChatService.typedHistoryItem loaded) in
       let aiRow :=
         {| Row.mid := uuid env (n + 3); Row.conversationId := cid;
            Row.sender := "ai"; Row.text := ChatResponse.reply r;
            Row.mcreatedAt := clock env (n + 3) |} in
       ChatResponse.reply r = replyOf (completion env (n + 2) turns)
       /\ w' = {| conversations := conversations w1;
                  messages := messages w1 ++ [userRow; aiRow];
                  calls := calls w1
                           ++ [MessageCreate cid "user" trimmed;
                               MessageFindMany cid;
                               ChatCompletionsCreate turns 500 7;
                               MessageCreate cid "ai" (ChatResponse.reply r)] |}.
Proof.
  unfold ChatService.processValidated. intros H.
  apply bind_Return_inv in H. destruct H as [cid [w1 [Hres H]]].
  apply bind_Return_inv in H. destruct H as [userRow [w2 [Huser H]]].
  apply message_create_Return_inv in Huser. destruct Huser as [HuserRow [_ Hw2]].
  apply bind_Return_inv in H. destruct H as [history [w3 [Hload H]]].
  apply findMany_Return_inv in Hload. destruct Hload as [Hhistory Hw3].
  apply bind_Return_inv in H. destruct H as [aiReply [w4 [Hgen H]]].
  rewrite generateResponse_spec in Hgen. injection Hgen as Hreply Hw4.
  apply bind_Return_inv in H. destruct H as [aiRow [w5 [Hai H]]].
  apply message_create_Return_inv in Hai. destruct Hai as [HaiRow [_ Hw5]].
  injection H as <- <-. cbn [ChatResponse.sessionId ChatResponse.reply].
  exists w1. split; [exact Hres |].
  subst userRow w2 history w3.
  cbn [prisma.logged conversations messages calls] in *.
  rewrite !length_app in Hreply. cbn [length] in Hreply.
  replace (length (calls w1) + 1 + 1) with (length (calls w1) + 2) in Hreply by lia.
  split; [symmetry; exact Hreply |].
  subst w4. cbn [prisma.logged conversations messages calls] in *.
  rewrite !length_app in HaiRow. cbn [length] in HaiRow.
  replace (length (calls w1) + 1 + 1 + 1) with (length (calls w1) + 3) in HaiRow by lia.
  subst w5 aiRow. rewrite <- Hreply.
  rewrite <- !app_assoc. cbn [app]. reflexivity.
Qed.

(** A call that returns went past the validation of the message and
    through the whole [try] block. *)
Lemma processMessage_Return_inv input env w r w' :
  ChatService.processMessage input env w = (Return r, w') ->
  exists m,
    ChatMessage.message input = Str m
    /\ trim m <> ""
    /\ String.length (trim m) <= 5000
    /\ ChatService.processValidated (trim m) (ChatMessage.sessionId input) env w
       = (Return r, w').
Proof.
  unfold ChatService.processMessage.
  destruct (ChatMessage.message input) as [| | b | k | m |];
    try (cbn; rewrite ?orb_true_r; discriminate).
  cbn [isString asString negb orb].
  rewrite orb_false_r.
  destruct (negb (truthy (Str m))); [discriminate |].
  destruct (String.length (trim m) =? 0) eqn:Hz; [discriminate |].
  destruct (ChatService.MAX_MESSAGE_LENGTH <? String.length (trim m)) eqn:Hl;
    [discriminate |].
  intros H. apply tryCatch_Return_inv in H.
  - exists m. repeat split; try assumption.
    + intros Hblank. rewrite Hblank in Hz. discriminate Hz.
    + apply Nat.ltb_ge in Hl. exact Hl.
  - intros e env1 w1 b w2.
    destruct (ChatService.rethrownAsIs e); discriminate.
Qed.

Lemma filter_owner_snoc cid rows (row : Row.Message) :
  Row.conversationId row = cid ->
  filter (fun m => String.eqb (Row.conversationId m) cid) (rows ++ [row])
  = filter (fun m => String.eqb (Row.conversationId m) cid) rows ++ [row].
Proof.
  intros H. rewrite filter_app. cbn. rewrite H, String.eqb_refl. reflexivity.
Qed.

(** *** Rows by ascending time stamp *)

Lemma insertByCreatedAt_perm r l :
  Permutation (prisma.message.insertByCreatedAt r l) (r :: l).
Proof.
  induction l as [| x l IH]; cbn [prisma.message.insertByCreatedAt].
  - apply Permutation_refl.
  - destruct (Row.mcreatedAt r <=? Row.mcreatedAt x).
    + apply Permutation_refl.
    + eapply Permutation_trans; [apply perm_skip, IH | apply perm_swap].
Qed.

(** The rows come back all, and no other. *)
Lemma orderByCreatedAt_perm l : Permutation (prisma.message.orderByCreatedAt l) l.
Proof.
  induction l as [| r l IH]; cbn [prisma.message.orderByCreatedAt].
  - apply Permutation_refl.
  - eapply Permutation_trans; [apply insertByCreatedAt_perm | apply perm_skip, IH].
Qed.

Lemma insertByCreatedAt_sorted r l :
  StronglySorted stampedBefore l ->
  StronglySorted stampedBefore (prisma.message.insertByCreatedAt r l).
Proof.
  induction 1 as [| x l Hsorted IH Hall]; cbn [prisma.message.insertByCreatedAt].
  - repeat constructor.
  - destruct (Nat.leb_spec (Row.mcreatedAt r) (Row.mcreatedAt x)) as [Hle | Hgt].
    + constructor; [constructor; assumption |].
      constructor; [exact Hle |].
      eapply Forall_impl; [| exact Hall].
      intros y Hy. unfold stampedBefore in *. lia.
    + constructor; [exact IH |].
      apply (Permutation_Forall (Permutation_sym (insertByCreatedAt_perm r l))).
      constructor; [unfold stampedBefore; lia | exact Hall].
Qed.

(** They come back by ascending stamp. *)
Lemma orderByCreatedAt_sorted l :
  StronglySorted stampedBefore (prisma.message.orderByCreatedAt l).
Proof.
  induction l as [| r l IH]; cbn [prisma.message.orderByCreatedAt].
  - constructor.
  - apply insertByCreatedAt_sorted, IH.
Qed.

(** Rows stored by ascending stamp come back as they are stored. *)
Lemma orderByCreatedAt_fixed l :
  StronglySorted stampedBefore l -> prisma.message.orderByCreatedAt l = l.
Proof.
  induction 1 as [| x l Hsorted IH Hall]; cbn [prisma.message.orderByCreatedAt];
    [reflexivity |].
  rewrite IH. destruct Hall as [| y l Hxy _]; cbn [prisma.message.insertByCreatedAt];
    [reflexivity |].
  unfold stampedBefore in Hxy. apply Nat.leb_le in Hxy. rewrite Hxy. reflexivity.
Qed.

Lemma insertByCreatedAt_snoc r l last :
  Row.mcreatedAt r <= Row.mcreatedAt last ->
  prisma.message.insertByCreatedAt r (l ++ [last])
  = prisma.message.insertByCreatedAt r l ++ [last].
Proof.
  intros Hle. induction l as [| x l IH]; cbn -[Nat.leb].
  - apply Nat.leb_le in Hle. rewrite Hle. reflexivity.
  - destruct (Row.mcreatedAt r <=? Row.mcreatedAt x); [reflexivity |].
    rewrite IH. reflexivity.
Qed.

(** A row stamped after all the others comes back last. *)
Lemma orderByCreatedAt_snoc l last :
  Forall (fun row => Row.mcreatedAt row < Row.mcreatedAt last) l ->
  prisma.message.orderByCreatedAt (l ++ [last])
  = prisma.message.orderByCreatedAt l ++ [last].
Proof.
  induction 1 as [| x l Hx _ IH]; [reflexivity |].
  change (prisma.message.insertByCreatedAt x
            (prisma.message.orderByCreatedAt (l ++ [last]))
          = prisma.message.insertByCreatedAt x (prisma.message.orderByCreatedAt l)
            ++ [last]).
  rewrite IH. apply insertByCreatedAt_snoc. lia.
Qed.

Lemma filter_length_perm {A} (f : A -> bool) l l' :
  Permutation l l' -> length (filter f l) = length (filter f l').
Proof.
  induction 1 as [| x l l' _ IH | x y l | l l' l'' _ IH1 _ IH2]; cbn [filter].
  - reflexivity.
  - destruct (f x); cbn [length]; rewrite IH; reflexivity.
  - destruct (f x), (f y); reflexivity.
  - rewrite IH1. exact IH2.
Qed.

(** In rows by ascending stamp, a row that at most [k] rows, itself
    counted, are stamped like or after is among the last [k]. *)
Lemma sliceLast_keeps_late_row k l row :
  StronglySorted stampedBefore l ->
  In row l ->
  length (filter (fun x => Row.mcreatedAt row <=? Row.mcreatedAt x) l) <= k ->
  In row (sliceLast k l).
Proof.
  intros Hsorted Hin Hcount.
  apply in_split in Hin. destruct Hin as [l1 [l2 ->]].
  assert (Hafter : Forall (stampedBefore row) l2).
  { clear Hcount. induction l1 as [| x l1 IH]; cbn [app] in Hsorted.
    - inversion Hsorted; assumption.
    - inversion Hsorted; auto. }
  assert (Hl2 : length (row :: l2) <= k).
  { rewrite filter_app, length_app in Hcount. cbn [filter] in Hcount.
    rewrite Nat.leb_refl in Hcount. cbn [length] in *.
    assert (Hall : length (filter (fun x => Row.mcreatedAt row <=? Row.mcreatedAt x) l2)
                   = length l2).
    { clear - Hafter. induction Hafter as [| x l2 Hx _ IH]; cbn; [reflexivity |].
      unfold stampedBefore in Hx. apply Nat.leb_le in Hx. rewrite Hx.
      cbn. rewrite IH. reflexivity. }
    lia. }
  unfold sliceLast. rewrite length_app. cbn [length] in *.
  rewrite skipn_app.
  replace (length l1 + S (length l2) - k - length l1) with 0 by lia.
  cbn [skipn]. apply in_or_app. right. left. reflexivity.
Qed.

(** C2 (as stated, it fails). In a store whose clock has been set
    back, a conversation of ten rows stamped after the new one: the
    message is stored and the call returns, but the rows come back by
    ascending stamp, the new row first, and the last ten handed to the
    provider do not hold it. *)
Lemma stale_clock_drops_new_message :
  let run := ChatService.processMessage
               (Sample.send "NEW QUESTION" (Str (Sample.nthUuid 50)))
               (Sample.env (Some "Hello")) staleWorld in
  fst run = Return {| ChatResponse.reply := "Hello";
                      ChatResponse.sessionId := Sample.nthUuid 50 |}
  /\ existsb (fun row => String.eqb (Row.text row) "NEW QUESTION")
             (messages (snd run)) = true
  /\ exists turns,
       nth_error (calls (snd run)) 3 = Some (ChatCompletionsCreate turns 500 7)
       /\ length turns = 11
       /\ existsb (fun t => String.eqb (Turn.content t) "NEW QUESTION") turns = false.
Proof.
  cbv zeta. split; [reflexivity |]. split; [reflexivity |].
  eexists. split; [vm_compute; reflexivity |]. split; reflexivity.
Qed.

(** C2 (amended). When [processMessage] returns, the trimmed message
    was stored as a row of sender ["user"] before the provider was
    called: every call before it went to the store, and the rows loaded
    next, by ascending stamp, hold that row.  The turns handed to the
    provider hold its user turn whenever fewer than ten earlier rows of
    the conversation are stamped like it or after it; when all of them
    are stamped before it, its turn is the last one. *)
Theorem user_message_stored_before_completion input env w r w' :
  ChatService.processMessage input env w = (Return r, w') ->
  exists m pre userRow,
    let cid := ChatResponse.sessionId r in
    let before :=
      filter (fun row => String.eqb (Row.conversationId row) cid) (messages w) in
    let loaded := prisma.message.orderByCreatedAt (before ++ [userRow]) in
    let turns := LLMService.promptMessages (map ChatService.typedHistoryItem loaded) in
    let userTurn := {| Turn.role := Role.user; Turn.content := trim m |} in
    ChatMessage.message input = Str m
    /\ Row.conversationId userRow = cid
    /\ Row.sender userRow = "user"
    /\ Row.text userRow = trim m
    /\ In userRow (messages w')
    /\ Forall (fun c => c = ConversationCreate
                        \/ exists id, c = ConversationFindUnique id) pre
    /\ calls w'
       = calls w ++ pre
         ++ [MessageCreate cid "user" (trim m);
             MessageFindMany cid;
             ChatCompletionsCreate turns 500 7;
             MessageCreate cid "ai" (ChatResponse.reply r)]
    /\ In userRow loaded
    /\ (length (filter (fun row => Row.mcreatedAt userRow <=? Row.mcreatedAt row)
                       before) < 10 ->
        In userTurn turns)
    /\ (Forall (fun row => Row.mcreatedAt row < Row.mcreatedAt userRow) before ->
        exists earlier, turns = systemTurn :: earlier ++ [userTurn]).
Proof.
  intros H.
  apply processMessage_Return_inv in H. destruct H as [m [Hm [_ [_ H]]]].
  apply processValidated_Return_inv in H. destruct H as [w1 [Hres [_ Hw']]].
  apply resolveConversation_Return_summary in Hres.
  destruct Hres as [_ [Hmsgs [pre [Hcalls Hpre]]]].
  set (cid := ChatResponse.sessionId r) in *.
  set (userRow := {| Row.mid := uuid env (length (calls w1));
                     Row.conversationId := cid; Row.sender := "user";
                     Row.text := trim m;
                     Row.mcreatedAt := clock env (length (calls w1)) |}) in *.
  set (before := filter (fun x => String.eqb (Row.conversationId x) cid) (messages w)).
  exists m, pre, userRow. cbv zeta. fold before.
  rewrite (filter_owner_snoc cid (messages w1) userRow eq_refl), Hmsgs in Hw'.
  fold before in Hw'.
  set (loaded := prisma.message.orderByCreatedAt (before ++ [userRow])) in *.
  assert (Hperm : Permutation loaded (before ++ [userRow]))
    by apply orderByCreatedAt_perm.
  assert (Hin : In userRow loaded).
  { apply (Permutation_in _ (Permutation_sym Hperm)).
    apply in_or_app. right. left. reflexivity. }
  assert (Hturn : turnOfRow userRow
                  = {| Turn.role := Role.user; Turn.content := trim m |})
    by reflexivity.
  split; [exact Hm |]. split; [reflexivity |]. split; [reflexivity |].
  split; [reflexivity |].
  split.
  { rewrite Hw'. cbn [messages]. apply in_or_app. right. left. reflexivity. }
  split; [exact Hpre |].
  split.
  { rewrite Hw'. cbn [calls]. rewrite Hcalls, <- app_assoc. reflexivity. }
  split; [exact Hin |].
  rewrite promptMessages_typed. change LLMService.MAX_HISTORY with 10.
  split.
  - intros Hcount. right. rewrite <- Hturn. apply in_map.
    apply sliceLast_keeps_late_row;
      [apply orderByCreatedAt_sorted | exact Hin |].
    rewrite (filter_length_perm _ _ _ Hperm), filter_app, length_app.
    cbn [filter]. rewrite Nat.leb_refl. cbn [length]. lia.
  - intros Hlater. unfold loaded.
    rewrite (orderByCreatedAt_snoc before userRow Hlater).
    destruct (sliceLast_snoc 9 (prisma.message.orderByCreatedAt before) userRow)
      as [kept Hkept].
    exists (map turnOfRow kept). rewrite Hkept, map_app. reflexivity.
Qed.

Lemma user_message_stored_witness :
  let input := Sample.send "  Where is my order?  " Undefined in
  let env := Sample.env (Some "It is on its way.") in
  let r := {| ChatResponse.reply := "It is on its way.";
              ChatResponse.sessionId := Sample.nthUuid 0 |} in
  let w' := snd (ChatService.processMessage input env Sample.emptyWorld) in
  ChatService.processMessage input env Sample.emptyWorld = (Return r, w')
  /\ exists userRow,
       Row.text userRow = "Where is my order?"
       /\ In userRow (messages w')
       /\ In {| Turn.role := Role.user; Turn.content := "Where is my order?" |}
             (LLMService.promptMessages
                (map ChatService.typedHistoryItem
                     (prisma.message.orderByCreatedAt ([] ++ [userRow])))).
Proof.
  intros input env r w'.
  assert (Hrun : ChatService.processMessage input env Sample.emptyWorld
                 = (Return r, w')) by reflexivity.
  split; [exact Hrun |].
  destruct (user_message_stored_before_completion input env Sample.emptyWorld r w' Hrun)
    as [m [pre [userRow [Hm [_ [_ [Htext [Hin [_ [_ [_ [Hturn _]]]]]]]]]]]].
  injection Hm as <-.
  exists userRow. split; [exact Htext |]. split; [exact Hin |].
  apply Hturn. cbn. repeat constructor.
Defined.

(** C9. When [processMessage] returns, the text the completion step
    produced, a fallback text included, is the reply, and it was stored
    as it is in a new row of sender ["ai"] of the same conversation: the
    last call before returning, right after the call to the provider. *)
Theorem reply_stored_as_ai_message input env w r w' :
  ChatService.processMessage input env w = (Return r, w') ->
  exists userRow aiRow earlierCalls turns,
    let cid := ChatResponse.sessionId r in
    messages w' = messages w ++ [userRow; aiRow]
    /\ Row.conversationId userRow = cid
    /\ Row.conversationId aiRow = cid
    /\ Row.sender aiRow = "ai"
    /\ Row.text aiRow = ChatResponse.reply r
    /\ prisma.hasConversation cid w' = true
    /\ calls w'
       = earlierCalls
         ++ [ChatCompletionsCreate turns 500 7;
             MessageCreate cid "ai" (ChatResponse.reply r)]
    /\ ChatResponse.reply r
       = replyOf (completion env (length earlierCalls) turns).
Proof.
  intros H.
  apply processMessage_Return_inv in H. destruct H as [m [_ [_ [_ H]]]].
  apply processValidated_Return_inv in H. destruct H as [w1 [Hres [Hreply Hw']]].
  apply resolveConversation_Return_summary in Hres.
  destruct Hres as [Hhas [Hmsgs _]].
  set (cid := ChatResponse.sessionId r) in *.
  do 2 eexists.
  exists (calls w1 ++ [MessageCreate cid "user" (trim m); MessageFindMany cid]).
  eexists. cbn zeta.
  rewrite Hw'. cbn [messages calls]. rewrite Hmsgs.
  split; [reflexivity |].
  repeat split.
  - exact Hhas.
  - rewrite <- app_assoc. reflexivity.
  - rewrite length_app. cbn [length]. rewrite <- Hmsgs. exact Hreply.
Qed.

Lemma reply_stored_witness :
  let input := Sample.send "Is anyone there?" Undefined in
  let env := Sample.providerDown (Some 503) in
  let r := {| ChatResponse.reply := LLMService.UNAVAILABLE_FALLBACK;
              ChatResponse.sessionId := Sample.nthUuid 0 |} in
  let w' := snd (ChatService.processMessage input env Sample.emptyWorld) in
  ChatService.processMessage input env Sample.emptyWorld = (Return r, w')
  /\ exists userRow aiRow earlierCalls turns,
       messages w' = messages Sample.emptyWorld ++ [userRow; aiRow]
       /\ Row.conversationId userRow = Sample.nthUuid 0
       /\ Row.conversationId aiRow = Sample.nthUuid 0
       /\ Row.sender aiRow = "ai"
       /\ Row.text aiRow = LLMService.UNAVAILABLE_FALLBACK
       /\ prisma.hasConversation (Sample.nthUuid 0) w' = true
       /\ calls w'
          = earlierCalls
            ++ [ChatCompletionsCreate turns 500 7;
                MessageCreate (Sample.nthUuid 0) "ai" LLMService.UNAVAILABLE_FALLBACK]
       /\ LLMService.UNAVAILABLE_FALLBACK
          = replyOf (completion env (length earlierCalls) turns).
Proof.
  intros input env r w'.
  assert (Hrun : ChatService.processMessage input env Sample.emptyWorld
                 = (Return r, w')) by reflexivity.
  split; [exact Hrun |].
  exact (reply_stored_as_ai_message input env Sample.emptyWorld r w' Hrun).
Defined.

(** ** A store that serves the request *)

Lemma find_unknown id w :
  prisma.hasConversation id w = false ->
  find (fun c => String.eqb (Row.id c) id) (conversations w) = None.
Proof.
  unfold prisma.hasConversation.
  induction (conversations w) as [| c cs IH]; cbn; [reflexivity |].
  destruct (String.eqb (Row.id c) id); cbn; [discriminate | exact IH].
Qed.

Lemma validateSessionId_well_formed validate s :
  s <> "" -> validate s = true -> validateSessionId validate (Str s) = Return tt.
Proof.
  intros Hs Hok. unfold validateSessionId, isValidUUID.
  apply truthy_Str in Hs. rewrite Hs. cbn. rewrite Hok. reflexivity.
Qed.

(** A well-formed identity that names no conversation is replaced by a
    conversation created on the spot. *)
Lemma resolveConversation_unknown s env w :
  let n := length (calls w) in
  s <> "" ->
  uuidValidate env s = true ->
  prisma.hasConversation s w = false ->
  storeFault env n = None ->
  storeFault env (S n) = None ->
  prisma.hasConversation (uuid env (S n)) w = false ->
  ChatService.resolveConversation (Str s) env w
  = (Return (uuid env (S n)),
     {| conversations :=
          conversations w
          ++ [{| Row.id := uuid env (S n); Row.createdAt := clock env (S n) |}];
        messages := messages w;
        calls := calls w ++ [ConversationFindUnique s; ConversationCreate] |}).
Proof.
  intros n Hs Hok Hunknown Hfind Hcreate Hfresh.
  unfold ChatService.resolveConversation.
  rewrite (proj2 (truthy_Str s) Hs).
  unfold bind at 1. unfold ask.
  unfold bind at 1. unfold lift.
  rewrite (validateSessionId_well_formed _ s Hs Hok).
  unfold bind at 1. unfold prisma.conversation.findUnique.
  rewrite call_served by exact Hfind.
  cbn [asString prisma.logged conversations].
  rewrite (find_unknown s w Hunknown).
  unfold bind, prisma.conversation.create.
  rewrite call_served;
    cbn [prisma.logged calls]; rewrite length_app; cbn [length];
    replace (length (calls w) + 1) with (S n) by (unfold n; lia);
    [| exact Hcreate].
  cbn [Row.id]. rewrite !hasConversation_logged.
  rewrite Hfresh. unfold ret. cbn [Row.id calls conversations messages].
  rewrite <- app_assoc. reflexivity.
Qed.

(** Once the conversation is resolved, a store that rejects no further
    call lets the [try] block run to its end. *)
Lemma processValidated_served trimmed sessionId env w cid w1 :
  ChatService.resolveConversation sessionId env w = (Return cid, w1) ->
  (forall k, length (calls w1) <= k -> storeFault env k = None) ->
  exists r w',
    ChatService.processValidated trimmed sessionId env w = (Return r, w')
    /\ ChatResponse.sessionId r = cid
    /\ conversations w' = conversations w1.
Proof.
  intros Hres Hserve.
  destruct (resolveConversation_Return_summary _ _ _ _ _ Hres) as [Hhas _].
  unfold ChatService.processValidated.
  rewrite (bind_Return _ _ env w cid w1 Hres).
  unfold bind at 1. unfold prisma.message.create at 1.
  rewrite call_served by (apply Hserve; lia).
  rewrite hasConversation_logged, Hhas. cbn [negb].
  unfold bind at 1. unfold prisma.message.findMany.
  rewrite call_served by (apply Hserve; cbn; rewrite length_app; lia).
  unfold bind at 1. rewrite generateResponse_spec.
  unfold bind at 1. unfold prisma.message.create.
  rewrite call_served
    by (apply Hserve; cbn; rewrite !length_app; cbn; lia).
  unfold prisma.hasConversation in *.
  cbn [prisma.logged conversations messages calls].
  rewrite Hhas. cbn [negb].
  unfold ret. do 2 eexists. split; [reflexivity |]. split; reflexivity.
Qed.

(** [getConversationHistory] writes to neither table. *)
Lemma getConversationHistory_reads_only sessionId env w :
  let w' := snd (ChatService.getConversationHistory sessionId env w) in
  conversations w' = conversations w /\ messages w' = messages w.
Proof.
  unfold ChatService.getConversationHistory, bind, ask, lift, tryCatch,
    prisma.conversation.findUnique, prisma.message.findMany, prisma.call, throw, ret.
  destruct (validateSessionId (uuidValidate env) sessionId) as [[] | e];
    [| cbn; auto].
  destruct (storeFault env (length (calls w))) as [e |].
  - destruct (errorMessage e) as [msg |]; [destruct (includes msg "not found") |];
      cbn; auto.
  - destruct (find _ (conversations (prisma.logged _ w))) as [c |].
    + destruct (storeFault env (length (calls (prisma.logged _ w)))) as [e |].
      * destruct (errorMessage e) as [msg |];
          [destruct (includes msg "not found") |]; cbn; auto.
      * cbn. auto.
    + cbn. auto.
Qed.

(** C3. Given a well-formed identity that names no conversation, a
    store that rejects no call and generates an identity that is new and
    is not the one supplied: [processMessage] returns, having created one
    conversation, under the identity of that conversation and not under
    the one supplied; [getConversationHistory] throws "Conversation not
    found" and leaves both tables as they were. *)
Theorem unknown_session_recovered_by_send_refused_by_history m s env w :
  let n := length (calls w) in
  let created := {| Row.id := uuid env (S n); Row.createdAt := clock env (S n) |} in
  trim m <> "" ->
  String.length (trim m) <= 5000 ->
  s <> "" ->
  uuidValidate env s = true ->
  prisma.hasConversation s w = false ->
  (forall k, n <= k -> storeFault env k = None) ->
  prisma.hasConversation (Row.id created) w = false ->
  Row.id created <> s ->
  (exists r w',
     ChatService.processMessage (Sample.send m (Str s)) env w = (Return r, w')
     /\ ChatResponse.sessionId r = Row.id created
     /\ ChatResponse.sessionId r <> s
     /\ conversations w' = conversations w ++ [created]
     /\ prisma.hasConversation (ChatResponse.sessionId r) w' = true
     /\ prisma.hasConversation s w' = false)
  /\ (exists w'',
        ChatService.getConversationHistory (Str s) env w
        = (Throw (Error "Conversation not found"), w'')
        /\ conversations w'' = conversations w
        /\ messages w'' = messages w).
Proof.
  intros n created Hne Hlen Hs Hok Hunknown Hserve Hfresh Hdiff.
  assert (Hres := resolveConversation_unknown s env w Hs Hok Hunknown
                    (Hserve n (le_n n)) (Hserve (S n) (le_S _ _ (le_n n))) Hfresh).
  fold n in Hres.
  split.
  - destruct (processValidated_served (trim m) (Str s) env w _ _ Hres)
      as [r [w' [Hrun [Hcid Hconv]]]].
    { intros k Hk. apply Hserve. cbn in Hk. rewrite length_app in Hk. unfold n. lia. }
    exists r, w'.
    rewrite (processMessage_valid (Sample.send m (Str s)) env w m eq_refl Hne Hlen).
    unfold tryCatch. cbn [Sample.send ChatMessage.sessionId].
    rewrite Hrun. cbn [conversations] in Hconv.
    split; [reflexivity |]. split; [exact Hcid |].
    split; [rewrite Hcid; exact Hdiff |]. split; [exact Hconv |].
    unfold prisma.hasConversation. rewrite Hconv, !existsb_app.
    unfold prisma.hasConversation in Hunknown. rewrite Hunknown, Hcid.
    cbn. rewrite String.eqb_refl, orb_true_r.
    apply String.eqb_neq in Hdiff. cbn in Hdiff. rewrite Hdiff. auto.
  - exists (prisma.logged (ConversationFindUnique s) w).
    split; [| split; reflexivity].
    unfold ChatService.getConversationHistory.
    unfold bind at 1. unfold ask.
    unfold bind at 1. unfold lift.
    rewrite (validateSessionId_well_formed _ s Hs Hok).
    unfold tryCatch, bind, prisma.conversation.findUnique.
    rewrite call_served by exact (Hserve n (le_n n)).
    cbn [asString prisma.logged conversations].
    rewrite (find_unknown s w Hunknown). reflexivity.
Qed.

Lemma unknown_session_witness :
  let m := "Do you ship to India?" in
  let s := Sample.nthUuid 77 in
  let env := Sample.env (Some "Yes, we do.") in
  let w := Sample.emptyWorld in
  (trim m <> "" /\ String.length (trim m) <= 5000 /\ s <> ""
   /\ uuidValidate env s = true /\ prisma.hasConversation s w = false)
  /\ (exists r w',
        ChatService.processMessage (Sample.send m (Str s)) env w = (Return r, w')
        /\ ChatResponse.sessionId r = Sample.nthUuid 1
        /\ ChatResponse.sessionId r <> s
        /\ conversations w'
           = conversations w
             ++ [{| Row.id := Sample.nthUuid 1; Row.createdAt := 1001 |}]
        /\ prisma.hasConversation (ChatResponse.sessionId r) w' = true
        /\ prisma.hasConversation s w' = false)
  /\ (exists w'',
        ChatService.getConversationHistory (Str s) env w
        = (Throw (Error "Conversation not found"), w'')
        /\ conversations w'' = conversations w
        /\ messages w'' = messages w).
Proof.
  intros m s env w.
  split.
  - repeat split; try discriminate. vm_compute. repeat constructor.
  - apply (unknown_session_recovered_by_send_refused_by_history m s env w).
    + discriminate.
    + vm_compute. repeat constructor.
    + discriminate.
    + reflexivity.
    + reflexivity.
    + intros k _. reflexivity.
    + reflexivity.
    + discriminate.
Defined.

(** ** Admission control *)

(** Routes add nothing to what a request passes through. *)
Lemma walkRouter_routes_only layers m path :
  Forall (fun l => exists m' pattern h, l = express.RouterRoute m' pattern h) layers ->
  express.passed (express.walkRouter layers m path) = [].
Proof.
  induction 1 as [| l layers [m' [pattern [h ->]]] _ IH]; [reflexivity |].
  cbn [express.walkRouter].
  destruct (if express.methodEqb m m' then express.matchPattern pattern path else None);
    [reflexivity | exact IH].
Qed.

Lemma walkRouter_use mw layers m path :
  express.walkRouter (express.RouterUse mw :: layers) m path
  = express.through mw (express.walkRouter layers m path).
Proof. reflexivity. Qed.

(** Whatever follows the prefix, the router of the chat routes sends a
    request through its three limiters. *)
Lemma walkRouter_chat m path :
  express.limitersOf (express.passed (express.walkRouter chatRoutes.router m path))
  = [dailyLimiter; chatLimiter; sessionLimiter].
Proof.
  unfold chatRoutes.router. rewrite !walkRouter_use.
  cbn [express.through express.passed express.limitersOf].
  rewrite walkRouter_routes_only; [reflexivity |].
  repeat constructor; eauto.
Qed.

Lemma limitersFor_chat req rest :
  Request.path req = "chat" :: rest ->
  limitersFor req = [apiLimiter; dailyLimiter; chatLimiter; sessionLimiter].
Proof.
  intros Hpath. unfold limitersFor, app. rewrite Hpath.
  cbn [express.walkApp express.through express.passed express.limitersOf].
  f_equal.
  assert (Hhealth : (if express.methodEqb (Request.method req) GET
                     then express.matchPattern [express.Lit "health"] ("chat" :: rest)
                     else None) = None).
  { destruct (express.methodEqb (Request.method req) GET); reflexivity. }
  rewrite Hhealth.
  cbn [express.stripPrefix]. rewrite String.eqb_refl.
  destruct (express.target (express.walkRouter chatRoutes.router
                              (Request.method req) rest)).
  - apply walkRouter_chat.
  - cbn [express.passed]. rewrite app_nil_r. apply walkRouter_chat.
Qed.

Lemma limitersFor_starts_with_api req :
  exists rest, limitersFor req = apiLimiter :: rest.
Proof.
  unfold limitersFor, app.
  cbn [express.walkApp express.through express.passed express.limitersOf].
  eexists. reflexivity.
Qed.

(** C8. The per-conversation limiter has a window of 15 minutes and a
    cap of 20; its key is the identity of the request body when there is
    one, and the origin address when there is none; it is skipped exactly
    for GET requests.  The general limiter has a window of 15 minutes and
    a cap of 100, and every request, whatever its method and path, meets
    it before any other limiter: on the chat routes it comes before the
    daily, the per-origin and the per-conversation limiter, in this
    order. *)
Theorem admission_layers_keys_and_order :
  (rateLimit.windowMs sessionLimiter = 15 * 60 * 1000
   /\ rateLimit.max sessionLimiter = 20)
  /\ (forall req,
        truthy (bodySessionId req) = true ->
        rateLimit.keyGenerator sessionLimiter req = bodySessionId req)
  /\ (forall req address,
        truthy (bodySessionId req) = false ->
        Request.ip req = Some address -> address <> "" ->
        rateLimit.keyGenerator sessionLimiter req = Str address)
  /\ (forall req,
        rateLimit.skip sessionLimiter req = true <-> Request.method req = GET)
  /\ (rateLimit.windowMs apiLimiter = 15 * 60 * 1000
      /\ rateLimit.max apiLimiter = 100)
  /\ (forall req, exists rest, limitersFor req = apiLimiter :: rest)
  /\ (forall req rest,
        Request.path req = "chat" :: rest ->
        limitersFor req = [apiLimiter; dailyLimiter; chatLimiter; sessionLimiter]
        /\ (Request.method req = GET ->
            map fst (express.charges (limitersFor req) req)
            = [apiLimiter; dailyLimiter; chatLimiter])
        /\ (Request.method req = POST ->
            express.charges (limitersFor req) req
            = [(apiLimiter, ofOption (Request.ip req));
               (dailyLimiter, ofOption (Request.ip req));
               (chatLimiter, ofOption (Request.ip req));
               (sessionLimiter, rateLimit.keyGenerator sessionLimiter req)])).
Proof.
  split; [split; reflexivity |].
  split.
  { intros req Ht. unfold sessionLimiter. cbn [rateLimit.keyGenerator].
    unfold orElse. rewrite Ht, Ht. reflexivity. }
  split.
  { intros req address Ht Hip Hne. unfold sessionLimiter.
    cbn [rateLimit.keyGenerator]. unfold orElse. rewrite Ht, Hip.
    cbn [ofOption]. rewrite (proj2 (truthy_Str address) Hne). reflexivity. }
  split.
  { intros req. cbn. destruct (Request.method req); split; congruence. }
  split; [split; reflexivity |].
  split; [exact limitersFor_starts_with_api |].
  intros req rest Hpath. rewrite (limitersFor_chat req rest Hpath).
  split; [reflexivity |].
  split; intros Hm; unfold express.charges; cbn [filter rateLimit.skip apiLimiter
    dailyLimiter chatLimiter sessionLimiter rateLimit.defaultSkip negb];
    rewrite Hm; reflexivity.
Qed.

Lemma admission_layers_witness :
  let post := {| Request.method := POST; Request.path := ["chat"; "message"];
                 Request.body := Some {| Body.message := Str "hi";
                                         Body.sessionId := Str (Sample.nthUuid 5) |};
                 Request.ip := Some "203.0.113.7" |} in
  let first := {| Request.method := POST; Request.path := ["chat"; "message"];
                  Request.body := Some {| Body.message := Str "hi";
                                          Body.sessionId := Undefined |};
                  Request.ip := Some "203.0.113.7" |} in
  let get := {| Request.method := GET;
                Request.path := ["chat"; "history"; Sample.nthUuid 5];
                Request.body := None;
                Request.ip := Some "203.0.113.7" |} in
  rateLimit.keyGenerator sessionLimiter post = Str (Sample.nthUuid 5)
  /\ rateLimit.keyGenerator sessionLimiter first = Str "203.0.113.7"
  /\ rateLimit.skip sessionLimiter get = true
  /\ map fst (express.charges (limitersFor get) get)
     = [apiLimiter; dailyLimiter; chatLimiter]
  /\ map snd (express.charges (limitersFor post) post)
     = [Str "203.0.113.7"; Str "203.0.113.7"; Str "203.0.113.7";
        Str (Sample.nthUuid 5)].
Proof.
  intros post first get.
  destruct admission_layers_keys_and_order
    as [_ [Hkey [Hfallback [Hskip [_ [_ Hchat]]]]]].
  split; [exact (Hkey post eq_refl) |].
  split; [apply (Hfallback first "203.0.113.7" eq_refl eq_refl); discriminate |].
  split; [apply (proj2 (Hskip get)); reflexivity |].
  destruct (Hchat get ["history"; Sample.nthUuid 5] eq_refl) as [_ [Hget _]].
  destruct (Hchat post ["message"] eq_refl) as [_ [_ Hpost]].
  split; [exact (Hget eq_refl) |].
  rewrite (Hpost eq_refl). reflexivity.
Defined.

(** ** Sanitized error texts *)

Lemma includes_here s needle :
  String.prefix needle s = true -> includes s needle = true.
Proof. intros H. destruct s; cbn [includes]; rewrite H; reflexivity. Qed.

Lemma includes_later c s needle :
  includes s needle = true -> includes (String c s) needle = true.
Proof. intros H. cbn [includes]. rewrite H. apply orb_true_r. Qed.

Lemma prefix_app_includes a b s :
  String.prefix (a ++ b)%string s = true -> includes s b = true.
Proof.
  revert s. induction a as [| c a IH]; intros s H.
  - apply includes_here. exact H.
  - destruct s as [| c' s]; [discriminate H |].
    cbn in H. destruct (ascii_dec c c'); [| discriminate H].
    apply includes_later, IH, H.
Qed.

(** A text that holds a phrase holds every ending of the phrase. *)
Lemma includes_app s a b :
  includes s (a ++ b)%string = true -> includes s b = true.
Proof.
  induction s as [| c s IH]; cbn [includes]; intros H.
  - rewrite orb_false_r in H. exact (prefix_app_includes a b "" H).
  - apply orb_true_iff in H. destruct H as [H | H].
    + exact (prefix_app_includes a b (String c s) H).
    + apply includes_later, IH, H.
Qed.

Lemma getHistory_malformed_session isProduction s env w :
  s <> "" ->
  uuidValidate env s = false ->
  chatRoutes.getHistory isProduction s env w
  = (Return {| Response.status := 404;
               Response.json :=
                 ErrorJson (if isProduction then "Service configuration error"
                            else "Invalid session ID format") |}, w).
Proof.
  intros Hs Hbad. unfold chatRoutes.getHistory, tryCatch, bind, ret, ask, lift,
    validateSessionId, isValidUUID.
  apply truthy_Str in Hs. rewrite Hs. cbn [negb orb isString asString].
  rewrite Hbad. destruct isProduction; reflexivity.
Qed.

(** C10 (as stated, it fails). An error whose text holds [invalid] and
    [cannot be empty], and neither [not found] nor [required], keeps its
    own text in production. *)
Lemma sanitize_keeps_text_that_cannot_be_empty :
  let original := "Invalid value: text cannot be empty" in
  includes (toLowerCase original) "invalid" = true
  /\ includes (toLowerCase original) "not found" = false
  /\ includes (toLowerCase original) "required" = false
  /\ sanitizeErrorMessage (Error original) true = original
  /\ sanitizeErrorMessage (Error original) true <> "Service configuration error".
Proof. repeat split. discriminate. Qed.

(** C10 (amended). In production, an error whose lower-cased text holds
    [invalid] and none of [not found], [required] and [cannot be empty] is
    reported as "Service configuration error".  "Invalid session ID
    format" is such a text: a request with a malformed identity is
    answered with that configuration text, under status 400 on the
    message route and 404 on the history route. *)
Theorem invalid_text_sanitized_as_configuration_error :
  (forall e original,
     errorMessage e = Some original ->
     includes (toLowerCase original) "invalid" = true ->
     includes (toLowerCase original) "not found" = false ->
     includes (toLowerCase original) "required" = false ->
     includes (toLowerCase original) "cannot be empty" = false ->
     sanitizeErrorMessage e true = "Service configuration error")
  /\ sanitizeErrorMessage (Error "Invalid session ID format") true
     = "Service configuration error"
  /\ (forall b s env w,
        Body.sessionId b = Str s -> s <> "" -> uuidValidate env s = false ->
        chatRoutes.postMessage true (Some b) env w
        = (Return {| Response.status := 400;
                     Response.json := ErrorJson "Service configuration error" |}, w))
  /\ (forall s env w,
        s <> "" -> uuidValidate env s = false ->
        chatRoutes.getHistory true s env w
        = (Return {| Response.status := 404;
                     Response.json := ErrorJson "Service configuration error" |}, w)).
Proof.
  split.
  { intros e original He Hinvalid Hnf Hreq Hempty.
    unfold sanitizeErrorMessage. rewrite He. cbv zeta.
    assert (Hcnf : includes (toLowerCase original) "conversation not found" = false).
    { destruct (includes (toLowerCase original) "conversation not found") eqn:Hc;
        [| reflexivity].
      apply (includes_app _ "conversation " "not found") in Hc. congruence. }
    rewrite Hnf, Hcnf, Hreq, Hempty, Hinvalid. cbn. rewrite orb_true_r. reflexivity. }
  split; [reflexivity |].
  split.
  - intros b s env w. exact (postMessage_malformed_session true b s env w).
  - intros s env w. exact (getHistory_malformed_session true s env w).
Qed.

Lemma invalid_text_sanitized_witness :
  sanitizeErrorMessage (APIError (Some 400) "Invalid model requested") true
  = "Service configuration error"
  /\ chatRoutes.postMessage true
       (Some {| Body.message := Str "hi"; Body.sessionId := Str "not-a-uuid" |})
       (Sample.env None) Sample.emptyWorld
     = (Return {| Response.status := 400;
                  Response.json := ErrorJson "Service configuration error" |},
        Sample.emptyWorld)
  /\ chatRoutes.getHistory true "not-a-uuid" (Sample.env None) Sample.emptyWorld
     = (Return {| Response.status := 404;
                  Response.json := ErrorJson "Service configuration error" |},
        Sample.emptyWorld).
Proof.
  destruct invalid_text_sanitized_as_configuration_error
    as [Htext [_ [Hpost Hget]]].
  split; [| split].
  - apply (Htext _ "Invalid model requested"); reflexivity.
  - apply (Hpost _ "not-a-uuid"); [reflexivity | discriminate | reflexivity].
  - apply Hget; [discriminate | reflexivity].
Defined.

(** ** Further checks *)

(** Whatever the provider does, a first message is answered as soon as
    the store serves the request. *)
Lemma first_send_returns_whatever_the_provider_does m env w :
  let n := length (calls w) in
  trim m <> "" ->
  String.length (trim m) <= 5000 ->
  (forall k, n <= k -> storeFault env k = None) ->
  prisma.hasConversation (uuid env n) w = false ->
  exists r w',
    ChatService.processMessage (Sample.send m Undefined) env w = (Return r, w')
    /\ ChatResponse.sessionId r = uuid env n.
Proof.
  intros n Hne Hlen Hserve Hfresh.
  assert (Hres : ChatService.resolveConversation Undefined env w
                 = (Return (uuid env n),
                    {| conversations :=
                         conversations w
                         ++ [{| Row.id := uuid env n; Row.createdAt := clock env n |}];
                       messages := messages w;
                       calls := calls w ++ [ConversationCreate] |})).
  { unfold ChatService.resolveConversation. cbn [truthy].
    unfold bind, prisma.conversation.create.
    rewrite call_served by exact (Hserve n (le_n n)).
    cbn [Row.id]. rewrite hasConversation_logged. fold n. rewrite Hfresh.
    reflexivity. }
  destruct (processValidated_served (trim m) Undefined env w _ _ Hres)
    as [r [w' [Hrun [Hcid _]]]].
  { intros k Hk. apply Hserve. cbn in Hk. rewrite length_app in Hk. unfold n. lia. }
  exists r, w'.
  rewrite (processMessage_valid (Sample.send m Undefined) env w m eq_refl Hne Hlen).
  unfold tryCatch. cbn [Sample.send ChatMessage.sessionId].
  rewrite Hrun. split; [reflexivity | exact Hcid].
Qed.

(** The health check meets the general limiter and no other. *)
Example health_check_route :
  let req := {| Request.method := GET; Request.path := ["health"];
                Request.body := None; Request.ip := Some "203.0.113.7" |} in
  handlerFor req = Some express.HealthCheck
  /\ limitersFor req = [apiLimiter].
Proof. split; reflexivity. Qed.

Example message_route :
  let req := {| Request.method := POST; Request.path := ["chat"; "message"];
                Request.body := None; Request.ip := None |} in
  handlerFor req = Some express.PostMessage
  /\ rateLimit.keyGenerator sessionLimiter req = Str "unknown".
Proof. split; reflexivity. Qed.

Example trim_sample : trim "  hi there  " = "hi there".
Proof. reflexivity. Qed.

Example history_of_known_conversation :
  let env := Sample.env (Some "Within 14 days.") in
  let w := snd (ChatService.processMessage
                  (Sample.send "What is your return policy?" Undefined)
                  env Sample.emptyWorld) in
  option_map (fun h => map (fun e => (HistoryEntry.sender e, HistoryEntry.text e))
                           (ConversationHistory.messages h))
    (match fst (ChatService.getConversationHistory (Str (Sample.nthUuid 0)) env w) with
     | Return h => Some h
     | Throw _ => None
     end)
  = Some [(user, "What is your return policy?"); (ai, "Within 14 days.")].
Proof. reflexivity. Qed.

(* ================================================================== *)
(** * Further properties of the code *)
(* ================================================================== *)

(** ** What every run keeps *)

Section Keeps.

Variable R : World -> World -> Prop.
Hypothesis R_refl : forall w, R w w.
Hypothesis R_trans : forall w1 w2 w3, R w1 w2 -> R w2 w3 -> R w1 w3.
Hypothesis R_logged : forall c w, R w (prisma.logged c w).

Lemma keeps_ret {A} (a : A) : keeps R (ret a).
Proof. intros env w. apply R_refl. Qed.

Lemma keeps_throw {A} e : keeps R (@throw A e).
Proof. intros env w. apply R_refl. Qed.

Lemma keeps_lift {A} (c : Completion A) : keeps R (lift c).
Proof. intros env w. apply R_refl. Qed.

Lemma keeps_ask : keeps R ask.
Proof. intros env w. apply R_refl. Qed.

Lemma keeps_bind {A B} (c : IO A) (k : A -> IO B) :
  keeps R c -> (forall a, keeps R (k a)) -> keeps R (bind c k).
Proof.
  intros Hc Hk env w. unfold bind. specialize (Hc env w).
  destruct (c env w) as [[a | e] w1]; cbn [snd] in *.
  - exact (R_trans _ _ _ Hc (Hk a env w1)).
  - exact Hc.
Qed.

Lemma keeps_tryCatch {A} (body : IO A) (handler : Thrown -> IO A) :
  keeps R body -> (forall e, keeps R (handler e)) -> keeps R (tryCatch body handler).
Proof.
  intros Hb Hh env w. unfold tryCatch. specialize (Hb env w).
  destruct (body env w) as [[a | e] w1]; cbn [snd] in *.
  - exact Hb.
  - exact (R_trans _ _ _ Hb (Hh e env w1)).
Qed.

Lemma keeps_findUnique id : keeps R (prisma.conversation.findUnique id).
Proof.
  intros env w. unfold prisma.conversation.findUnique, prisma.call.
  destruct (storeFault env (length (calls w))); apply R_logged.
Qed.

Lemma keeps_findMany id : keeps R (prisma.message.findMany id).
Proof.
  intros env w. unfold prisma.message.findMany, prisma.call.
  destruct (storeFault env (length (calls w))); apply R_logged.
Qed.

Lemma keeps_generateResponse history : keeps R (LLMService.generateResponse history).
Proof. intros env w. rewrite generateResponse_spec. apply R_logged. Qed.

Lemma keeps_getConversationHistory sessionId :
  keeps R (ChatService.getConversationHistory sessionId).
Proof.
  unfold ChatService.getConversationHistory.
  apply keeps_bind; [apply keeps_ask | intros env'].
  apply keeps_bind; [apply keeps_lift | intros _].
  apply keeps_tryCatch.
  - apply keeps_bind; [apply keeps_findUnique | intros [c |]].
    + apply keeps_bind; [apply keeps_findMany | intros rows; apply keeps_ret].
    + apply keeps_throw.
  - intros e. destruct (errorMessage e) as [msg |]; [| apply keeps_throw].
    destruct (includes msg "not found"); apply keeps_throw.
Qed.

Lemma keeps_getHistory isProduction sessionId :
  keeps R (chatRoutes.getHistory isProduction sessionId).
Proof.
  unfold chatRoutes.getHistory. apply keeps_tryCatch.
  - apply keeps_bind; [apply keeps_ask | intros env'].
    apply keeps_bind; [apply keeps_lift | intros _].
    apply keeps_bind; [apply keeps_getConversationHistory | intros h].
    apply keeps_ret.
  - intros e. apply keeps_ret.
Qed.

End Keeps.

Lemma sameTables_trans w1 w2 w3 :
  sameTables w1 w2 -> sameTables w2 w3 -> sameTables w1 w3.
Proof. intros [H1 H2] [H3 H4]. split; congruence. Qed.

(** X2. Fetching a history, through the service or through its route,
    leaves both tables exactly as they were, whatever the identity asked
    for and whatever the store does. *)
Theorem history_leaves_tables_unchanged sessionId isProduction s env w :
  sameTables w (snd (ChatService.getConversationHistory sessionId env w))
  /\ sameTables w (snd (chatRoutes.getHistory isProduction s env w)).
Proof.
  assert (Hrefl : forall w0, sameTables w0 w0) by (intros w0; split; reflexivity).
  assert (Hlogged : forall c w0, sameTables w0 (prisma.logged c w0))
    by (intros c w0; split; reflexivity).
  split.
  - exact (keeps_getConversationHistory sameTables Hrefl sameTables_trans Hlogged
             sessionId env w).
  - exact (keeps_getHistory sameTables Hrefl sameTables_trans Hlogged
             isProduction s env w).
Qed.

(** ** How much a request writes *)

Lemma adds_nothing w : adds 0 0 w w.
Proof. exists [], []. rewrite !app_nil_r. cbn. auto. Qed.

Lemma adds_more c m c' m' w w' :
  c <= c' -> m <= m' -> adds c m w w' -> adds c' m' w w'.
Proof.
  intros Hc Hm [cs [ms [H1 [H2 [H3 H4]]]]]. exists cs, ms.
  repeat split; try assumption; lia.
Qed.

Lemma adds_then c1 m1 c2 m2 w1 w2 w3 :
  adds c1 m1 w1 w2 -> adds c2 m2 w2 w3 -> adds (c1 + c2) (m1 + m2) w1 w3.
Proof.
  intros [cs1 [ms1 [H1 [H2 [H3 H4]]]]] [cs2 [ms2 [H5 [H6 [H7 H8]]]]].
  exists (cs1 ++ cs2), (ms1 ++ ms2).
  rewrite H5, H1, H7, H3, <- !app_assoc, !length_app.
  repeat split; lia.
Qed.

Lemma adds_logged call w : adds 0 0 w (prisma.logged call w).
Proof. exists [], []. cbn. rewrite !app_nil_r. auto. Qed.

Lemma addsAtMost_more c m c' m' {A} (p : IO A) :
  c <= c' -> m <= m' -> addsAtMost c m p -> addsAtMost c' m' p.
Proof. intros Hc Hm Hp env w. exact (adds_more _ _ _ _ _ _ Hc Hm (Hp env w)). Qed.

Lemma addsAtMost_ret {A} (a : A) : addsAtMost 0 0 (ret a).
Proof. intros env w. apply adds_nothing. Qed.

Lemma addsAtMost_throw {A} e : addsAtMost 0 0 (@throw A e).
Proof. intros env w. apply adds_nothing. Qed.

Lemma addsAtMost_lift {A} (c : Completion A) : addsAtMost 0 0 (lift c).
Proof. intros env w. apply adds_nothing. Qed.

Lemma addsAtMost_ask : addsAtMost 0 0 ask.
Proof. intros env w. apply adds_nothing. Qed.

Lemma addsAtMost_bind c1 m1 c2 m2 {A B} (p : IO A) (k : A -> IO B) :
  addsAtMost c1 m1 p -> (forall a, addsAtMost c2 m2 (k a)) ->
  addsAtMost (c1 + c2) (m1 + m2) (bind p k).
Proof.
  intros Hp Hk env w. unfold bind. specialize (Hp env w).
  destruct (p env w) as [[a | e] w1]; cbn [snd] in *.
  - exact (adds_then _ _ _ _ _ _ _ Hp (Hk a env w1)).
  - apply (adds_more c1 m1); [lia | lia | exact Hp].
Qed.

Lemma addsAtMost_tryCatch c m {A} (body : IO A) (handler : Thrown -> IO A) :
  addsAtMost c m body -> (forall e, addsAtMost 0 0 (handler e)) ->
  addsAtMost c m (tryCatch body handler).
Proof.
  intros Hb Hh env w. unfold tryCatch. specialize (Hb env w).
  destruct (body env w) as [[a | e] w1]; cbn [snd] in *; [exact Hb |].
  apply (adds_more (c + 0) (m + 0)); [lia | lia |].
  exact (adds_then _ _ _ _ _ _ _ Hb (Hh e env w1)).
Qed.

Lemma addsAtMost_findUnique id : addsAtMost 0 0 (prisma.conversation.findUnique id).
Proof.
  intros env w. unfold prisma.conversation.findUnique, prisma.call.
  destruct (storeFault env (length (calls w))); apply adds_logged.
Qed.

Lemma addsAtMost_findMany id : addsAtMost 0 0 (prisma.message.findMany id).
Proof.
  intros env w. unfold prisma.message.findMany, prisma.call.
  destruct (storeFault env (length (calls w))); apply adds_logged.
Qed.

Lemma addsAtMost_generateResponse history :
  addsAtMost 0 0 (LLMService.generateResponse history).
Proof. intros env w. rewrite generateResponse_spec. apply adds_logged. Qed.

Lemma addsAtMost_conversation_create : addsAtMost 1 0 prisma.conversation.create.
Proof.
  intros env w. unfold prisma.conversation.create, prisma.call.
  destruct (storeFault env (length (calls w)));
    [apply (adds_more 0 0); [lia | lia | apply adds_logged] |].
  destruct (prisma.hasConversation _ (prisma.logged ConversationCreate w)); cbn [snd].
  - apply (adds_more 0 0); [lia | lia | apply adds_logged].
  - eexists [_], []. cbn. rewrite app_nil_r. auto.
Qed.

Lemma addsAtMost_message_create conversationId sender text :
  addsAtMost 0 1 (prisma.message.create conversationId sender text).
Proof.
  intros env w. unfold prisma.message.create, prisma.call.
  destruct (storeFault env (length (calls w)));
    [apply (adds_more 0 0); [lia | lia | apply adds_logged] |].
  destruct (prisma.hasConversation conversationId
              (prisma.logged (MessageCreate conversationId sender text) w));
    cbn [negb snd].
  - eexists [], [_]. cbn. rewrite app_nil_r. auto.
  - apply (adds_more 0 0); [lia | lia | apply adds_logged].
Qed.

Lemma addsAtMost_resolveConversation sessionId :
  addsAtMost 1 0 (ChatService.resolveConversation sessionId).
Proof.
  unfold ChatService.resolveConversation. destruct (truthy sessionId).
  - apply (addsAtMost_bind 0 0 1 0); [apply addsAtMost_ask | intros env'].
    apply (addsAtMost_bind 0 0 1 0); [apply addsAtMost_lift | intros _].
    apply (addsAtMost_bind 0 0 1 0); [apply addsAtMost_findUnique | intros [c |]].
    + apply (addsAtMost_more 0 0); [lia | lia | apply addsAtMost_ret].
    + apply (addsAtMost_bind 1 0 0 0);
        [apply addsAtMost_conversation_create | intros c; apply addsAtMost_ret].
  - apply (addsAtMost_bind 1 0 0 0);
      [apply addsAtMost_conversation_create | intros c; apply addsAtMost_ret].
Qed.

Lemma addsAtMost_processMessage input :
  addsAtMost 1 2 (ChatService.processMessage input).
Proof.
  unfold ChatService.processMessage.
  destruct (negb (truthy (ChatMessage.message input))
            || negb (isString (ChatMessage.message input)));
    [apply (addsAtMost_more 0 0); [lia | lia | apply addsAtMost_throw] |].
  cbv zeta.
  destruct (String.length (trim (asString (ChatMessage.message input))) =? 0);
    [apply (addsAtMost_more 0 0); [lia | lia | apply addsAtMost_throw] |].
  destruct (ChatService.MAX_MESSAGE_LENGTH
            <? String.length (trim (asString (ChatMessage.message input))));
    [apply (addsAtMost_more 0 0); [lia | lia | apply addsAtMost_throw] |].
  apply addsAtMost_tryCatch.
  - unfold ChatService.processValidated.
    apply (addsAtMost_bind 1 0 0 2);
      [apply addsAtMost_resolveConversation | intros cid].
    apply (addsAtMost_bind 0 1 0 1);
      [apply addsAtMost_message_create | intros userRow].
    apply (addsAtMost_bind 0 0 0 1); [apply addsAtMost_findMany | intros history].
    apply (addsAtMost_bind 0 0 0 1);
      [apply addsAtMost_generateResponse | intros aiReply].
    apply (addsAtMost_bind 0 1 0 0);
      [apply addsAtMost_message_create | intros aiRow; apply addsAtMost_ret].
  - intros e. destruct (ChatService.rethrownAsIs e); apply addsAtMost_throw.
Qed.

(** X1. Whatever the request, the store and the provider do, and
    whether it returns or throws, one run of the service, and one run of
    the route of a message, adds at most one conversation and at most two
    messages, after the rows that were there, which it leaves as they
    were. *)
Theorem send_writes_are_bounded input isProduction reqBody env w :
  adds 1 2 w (snd (ChatService.processMessage input env w))
  /\ adds 1 2 w (snd (chatRoutes.postMessage isProduction reqBody env w)).
Proof.
  split; [apply addsAtMost_processMessage |].
  revert env w. change (addsAtMost 1 2 (chatRoutes.postMessage isProduction reqBody)).
  unfold chatRoutes.postMessage. apply addsAtMost_tryCatch.
  - apply (addsAtMost_bind 0 0 1 2).
    { destruct reqBody; [apply addsAtMost_ret | apply addsAtMost_throw]. }
    intros body. cbv zeta.
    apply (addsAtMost_bind 0 0 1 2).
    { destruct (truthy (Body.sessionId body)); [| apply addsAtMost_ret].
      apply (addsAtMost_bind 0 0 0 0);
        [apply addsAtMost_ask | intros env'; apply addsAtMost_lift]. }
    intros _.
    apply (addsAtMost_bind 1 2 0 0);
      [apply addsAtMost_processMessage | intros r; apply addsAtMost_ret].
  - intros e. apply addsAtMost_ret.
Qed.

(** ** Fetching a history *)

Lemma find_known id w :
  prisma.hasConversation id w = true ->
  exists c, find (fun c => String.eqb (Row.id c) id) (conversations w) = Some c.
Proof.
  unfold prisma.hasConversation.
  induction (conversations w) as [| c cs IH]; cbn; [discriminate |].
  destruct (String.eqb (Row.id c) id); cbn; eauto.
Qed.

(** The run of [getConversationHistory] on a known conversation. *)
Lemma getConversationHistory_known s env w :
  s <> "" ->
  uuidValidate env s = true ->
  prisma.hasConversation s w = true ->
  storeFault env (length (calls w)) = None ->
  storeFault env (S (length (calls w))) = None ->
  ChatService.getConversationHistory (Str s) env w
  = (Return {| ConversationHistory.messages :=
                 map ChatService.typedEntry
                     (prisma.message.orderByCreatedAt
                        (filter (fun r => String.eqb (Row.conversationId r) s)
                                (messages w)));
               ConversationHistory.sessionId := s |},
     {| conversations := conversations w;
        messages := messages w;
        calls := calls w ++ [ConversationFindUnique s; MessageFindMany s] |}).
Proof.
  intros Hs Hok Hknown Hfind Hload.
  destruct (find_known s w Hknown) as [c Hc].
  unfold ChatService.getConversationHistory.
  unfold bind at 1. unfold ask.
  unfold bind at 1. unfold lift.
  rewrite (validateSessionId_well_formed _ s Hs Hok).
  unfold tryCatch, bind, prisma.conversation.findUnique, prisma.message.findMany.
  rewrite call_served by exact Hfind.
  cbn [asString prisma.logged conversations]. rewrite Hc.
  rewrite call_served
    by (cbn [calls prisma.logged]; rewrite length_app; cbn [length];
        replace (length (calls w) + 1) with (S (length (calls w))) by lia;
        exact Hload).
  unfold ret, prisma.logged. cbn [conversations messages calls].
  rewrite <- app_assoc. reflexivity.
Qed.

Lemma typedEntry_sender r :
  ChatService.typedEntry r
  = {| HistoryEntry.id := Row.mid r;
       HistoryEntry.sender := if String.eqb (Row.sender r) "user" then user else ai;
       HistoryEntry.text := Row.text r;
       HistoryEntry.createdAt := Row.mcreatedAt r |}.
Proof.
  unfold ChatService.typedEntry, ChatService.typedSender.
  destruct (String.eqb (Row.sender r) "user"); [reflexivity |].
  destruct (String.eqb (Row.sender r) "ai"); reflexivity.
Qed.

Lemma strictly_sorted_is_sorted l :
  StronglySorted stampedStrictlyBefore l -> StronglySorted stampedBefore l.
Proof.
  induction 1 as [| x l _ IH Hall]; constructor; [exact IH |].
  eapply Forall_impl; [| exact Hall].
  intros y Hy. unfold stampedBefore, stampedStrictlyBefore in *. lia.
Qed.

(** X4. For a well-formed identity that names a conversation, and a
    store that serves the two reads, the history is made of the rows of
    that conversation, all of them and no other, by ascending time stamp,
    each with its own identity, text and stamp, a sender ["user"] as
    [user] and any other stored sender as [ai]; the identity asked for is
    echoed.  When the rows are stored by strictly ascending stamp, the
    history is in stored order. *)
Theorem history_returns_every_row s env w :
  let n := length (calls w) in
  let rows := filter (fun r => String.eqb (Row.conversationId r) s) (messages w) in
  let entry := fun r =>
    {| HistoryEntry.id := Row.mid r;
       HistoryEntry.sender := if String.eqb (Row.sender r) "user" then user else ai;
       HistoryEntry.text := Row.text r;
       HistoryEntry.createdAt := Row.mcreatedAt r |} in
  s <> "" ->
  uuidValidate env s = true ->
  prisma.hasConversation s w = true ->
  storeFault env n = None ->
  storeFault env (S n) = None ->
  exists h w' ordered,
    ChatService.getConversationHistory (Str s) env w = (Return h, w')
    /\ ConversationHistory.messages h = map entry ordered
    /\ Permutation ordered rows
    /\ StronglySorted stampedBefore ordered
    /\ (StronglySorted stampedStrictlyBefore rows -> ordered = rows)
    /\ length (ConversationHistory.messages h) = length rows
    /\ ConversationHistory.sessionId h = s
    /\ calls w' = calls w ++ [ConversationFindUnique s; MessageFindMany s].
Proof.
  intros n rows entry Hs Hok Hknown Hfind Hload.
  rewrite (getConversationHistory_known s env w Hs Hok Hknown Hfind Hload).
  fold rows.
  exists {| ConversationHistory.messages :=
              map ChatService.typedEntry (prisma.message.orderByCreatedAt rows);
            ConversationHistory.sessionId := s |}.
  eexists. exists (prisma.message.orderByCreatedAt rows).
  split; [reflexivity |].
  cbn [ConversationHistory.messages ConversationHistory.sessionId calls].
  split; [apply map_ext; exact typedEntry_sender |].
  split; [apply orderByCreatedAt_perm |].
  split; [apply orderByCreatedAt_sorted |].
  split; [intros Hstored; apply orderByCreatedAt_fixed, strictly_sorted_is_sorted, Hstored |].
  split; [rewrite length_map; apply Permutation_length, orderByCreatedAt_perm |].
  split; reflexivity.
Qed.

Lemma history_returns_every_row_witness :
  let env := Sample.env (Some "Yes, to Europe too.") in
  exists h w',
    ChatService.getConversationHistory (Str (Sample.nthUuid 50)) env staleWorld
    = (Return h, w')
    /\ map HistoryEntry.text (ConversationHistory.messages h)
       = map Row.text (staleRows (Sample.nthUuid 50))
    /\ length (ConversationHistory.messages h) = 10.
Proof.
  intros env.
  destruct (history_returns_every_row (Sample.nthUuid 50) env staleWorld
              ltac:(discriminate) eq_refl eq_refl eq_refl eq_refl)
    as [h [w' [ordered [Hrun [Hrows [_ [_ [Hstored [Hlen _]]]]]]]]].
  exists h, w'. split; [exact Hrun |].
  split; [| exact Hlen].
  rewrite Hrows, Hstored.
  - rewrite map_map. reflexivity.
  - repeat (constructor;
            [| repeat (constructor; [apply Nat.ltb_lt; reflexivity |]); constructor]).
    constructor.
Defined.

(** X5. Whatever [getConversationHistory] throws is the refusal of a
    missing identity, the refusal of a malformed one, the fixed text of a
    failed fetch, or an error whose own text holds "not found": the
    service's "Conversation not found", or a failure of the store that
    happens to hold these words. *)
Theorem history_throws_classified sessionId env w e w' :
  ChatService.getConversationHistory sessionId env w = (Throw e, w') ->
  e = Error "Session ID is required"
  \/ e = Error "Invalid session ID format"
  \/ e = Error "Failed to fetch conversation history"
  \/ exists text, errorMessage e = Some text /\ includes text "not found" = true.
Proof.
  unfold ChatService.getConversationHistory.
  unfold bind at 1. unfold ask.
  unfold bind at 1. unfold lift.
  destruct (validateSessionId (uuidValidate env) sessionId) as [[] | e0] eqn:Hval.
  - unfold tryCatch.
    destruct (bind (prisma.conversation.findUnique (asString sessionId)) _ env w)
      as [[h | error] w1]; [discriminate |].
    destruct (errorMessage error) as [text |] eqn:Htext.
    + destruct (includes text "not found") eqn:Hnf; intros H; injection H as <- _.
      * right. right. right. exists text. auto.
      * auto.
    + intros H. injection H as <- _. auto.
  - intros H. injection H as <- _.
    unfold validateSessionId in Hval.
    destruct (negb (truthy sessionId) || negb (isString sessionId)).
    + injection Hval as <-. auto.
    + destruct (negb (isValidUUID (uuidValidate env) (asString sessionId)));
        [injection Hval as <-; auto | discriminate Hval].
Qed.

Lemma history_throws_classified_witness :
  let env := Sample.failingAt 0
               (Error "relation Conversation not found in schema public") in
  let outcome := ChatService.getConversationHistory (Str (Sample.nthUuid 9))
                   env Sample.emptyWorld in
  fst outcome = Throw (Error "relation Conversation not found in schema public")
  /\ exists text,
       Some "relation Conversation not found in schema public" = Some text
       /\ includes text "not found" = true.
Proof.
  intros env outcome.
  assert (Hrun : outcome
                 = (Throw (Error "relation Conversation not found in schema public"),
                    snd outcome)) by reflexivity.
  split; [reflexivity |].
  destruct (history_throws_classified _ _ _ _ _ Hrun) as [H | [H | [H | H]]];
    try discriminate H.
  exact H.
Defined.

(** ** The two routes *)

Lemma messageStatusCode_range e :
  In (chatRoutes.messageStatusCode e) [400; 503; 500].
Proof.
  unfold chatRoutes.messageStatusCode.
  destruct (errorMessage e) as [text |]; [| cbn; auto].
  destruct (includes (toLowerCase text) "required"
            || includes (toLowerCase text) "cannot be empty"
            || includes (toLowerCase text) "invalid session"); [cbn; auto |].
  destruct (includes (toLowerCase text) "api key"
            || includes (toLowerCase text) "rate limit"); [cbn; auto |].
  destruct (includes (toLowerCase text) "exceeds maximum"); cbn; auto.
Qed.

(** The answer of the message route: a reply under 200, or the status
    and text computed from the error caught. *)
Lemma postMessage_answer isProduction reqBody env w :
  exists w',
    (exists r,
       chatRoutes.postMessage isProduction reqBody env w
       = (Return {| Response.status := 200; Response.json := ReplyJson r |}, w'))
    \/ (exists e,
          chatRoutes.postMessage isProduction reqBody env w
          = (Return {| Response.status := chatRoutes.messageStatusCode e;
                       Response.json :=
                         ErrorJson (sanitizeErrorMessage e isProduction) |}, w')).
Proof.
  unfold chatRoutes.postMessage, tryCatch.
  match goal with
  | |- context [match ?body env w with _ => _ end] =>
      destruct (body env w) as [[resp | e] w1] eqn:Hbody
  end.
  - exists w1. left.
    apply bind_Return_inv in Hbody. destruct Hbody as [b [w2 [_ Hbody]]].
    cbv zeta in Hbody.
    apply bind_Return_inv in Hbody. destruct Hbody as [[] [w3 [_ Hbody]]].
    apply bind_Return_inv in Hbody. destruct Hbody as [r [w4 [_ Hbody]]].
    injection Hbody as <- _. eauto.
  - exists w1. right. exists e. reflexivity.
Qed.

(** The answer of the history route. *)
Lemma getHistory_answer isProduction s env w :
  exists w',
    (exists h,
       chatRoutes.getHistory isProduction s env w
       = (Return {| Response.status := 200; Response.json := HistoryJson h |}, w'))
    \/ (exists e,
          chatRoutes.getHistory isProduction s env w
          = (Return {| Response.status :=
                         if chatRoutes.historyIsNotFound e then 404 else 500;
                       Response.json :=
                         ErrorJson (sanitizeErrorMessage e isProduction) |}, w')).
Proof.
  unfold chatRoutes.getHistory, tryCatch.
  match goal with
  | |- context [match ?body env w with _ => _ end] =>
      destruct (body env w) as [[resp | e] w1] eqn:Hbody
  end.
  - exists w1. left.
    apply bind_Return_inv in Hbody. destruct Hbody as [env' [w2 [_ Hbody]]].
    apply bind_Return_inv in Hbody. destruct Hbody as [[] [w3 [_ Hbody]]].
    apply bind_Return_inv in Hbody. destruct Hbody as [h [w4 [_ Hbody]]].
    injection Hbody as <- _. eauto.
  - exists w1. right. exists e. reflexivity.
Qed.

(** X6. Neither route ever throws: the message route answers 200 with
    a reply, or 400, 503 or 500 with an error text; the history route
    answers 200 with a history, or 404 or 500 with an error text. *)
Theorem routes_always_answer isProduction reqBody s env w :
  (exists resp w',
     chatRoutes.postMessage isProduction reqBody env w = (Return resp, w')
     /\ ((Response.status resp = 200 /\ exists r, Response.json resp = ReplyJson r)
         \/ (In (Response.status resp) [400; 503; 500]
             /\ exists text, Response.json resp = ErrorJson text)))
  /\ (exists resp w',
        chatRoutes.getHistory isProduction s env w = (Return resp, w')
        /\ ((Response.status resp = 200 /\ exists h, Response.json resp = HistoryJson h)
            \/ (In (Response.status resp) [404; 500]
                /\ exists text, Response.json resp = ErrorJson text))).
Proof.
  split.
  - destruct (postMessage_answer isProduction reqBody env w)
      as [w' [[r Hrun] | [e Hrun]]]; rewrite Hrun; do 2 eexists;
      (split; [reflexivity |]); cbn [Response.status Response.json].
    + left. eauto.
    + right. split; [apply messageStatusCode_range | eauto].
  - destruct (getHistory_answer isProduction s env w)
      as [w' [[h Hrun] | [e Hrun]]]; rewrite Hrun; do 2 eexists;
      (split; [reflexivity |]); cbn [Response.status Response.json].
    + left. eauto.
    + right. split; [| eauto].
      destruct (chatRoutes.historyIsNotFound e); cbn; auto.
Qed.

(** X7. An identity that is present but falsy (the empty string, [null],
    [false], zero) is not refused as malformed: the message route treats
    the request exactly as one without identity. *)
Theorem falsy_session_is_no_session isProduction message sessionId env w :
  truthy sessionId = false ->
  chatRoutes.postMessage isProduction
    (Some {| Body.message := message; Body.sessionId := sessionId |}) env w
  = chatRoutes.postMessage isProduction
      (Some {| Body.message := message; Body.sessionId := Undefined |}) env w.
Proof.
  intros Hfalsy.
  unfold chatRoutes.postMessage, tryCatch, bind, ret.
  cbn [Body.message Body.sessionId truthy]. rewrite Hfalsy.
  unfold ChatService.processMessage, tryCatch, ChatService.processValidated,
    ChatService.resolveConversation, bind.
  cbn [ChatMessage.message ChatMessage.sessionId truthy]. rewrite Hfalsy.
  reflexivity.
Qed.

Lemma falsy_session_is_no_session_witness :
  let env := Sample.env (Some "Hello!") in
  fst (chatRoutes.postMessage false
         (Some {| Body.message := Str "hi"; Body.sessionId := Str "" |})
         env Sample.emptyWorld)
  = Return {| Response.status := 200;
              Response.json :=
                ReplyJson {| ChatResponse.reply := "Hello!";
                             ChatResponse.sessionId := Sample.nthUuid 0 |} |}.
Proof.
  intros env.
  rewrite (falsy_session_is_no_session false (Str "hi") (Str "") env
             Sample.emptyWorld eq_refl).
  reflexivity.
Defined.

(** ** Runs of the service *)

Lemma resolveConversation_known s env w :
  s <> "" ->
  uuidValidate env s = true ->
  prisma.hasConversation s w = true ->
  storeFault env (length (calls w)) = None ->
  ChatService.resolveConversation (Str s) env w
  = (Return s, prisma.logged (ConversationFindUnique s) w).
Proof.
  intros Hs Hok Hknown Hfind.
  destruct (find_known s w Hknown) as [c Hc].
  unfold ChatService.resolveConversation.
  rewrite (proj2 (truthy_Str s) Hs).
  unfold bind at 1. unfold ask.
  unfold bind at 1. unfold lift.
  rewrite (validateSessionId_well_formed _ s Hs Hok).
  unfold bind, prisma.conversation.findUnique.
  rewrite call_served by exact Hfind.
  cbn [asString prisma.logged conversations]. rewrite Hc. reflexivity.
Qed.

Lemma resolveConversation_absent env w :
  storeFault env (length (calls w)) = None ->
  prisma.hasConversation (uuid env (length (calls w))) w = false ->
  ChatService.resolveConversation Undefined env w
  = (Return (uuid env (length (calls w))),
     {| conversations :=
          conversations w
          ++ [{| Row.id := uuid env (length (calls w));
                 Row.createdAt := clock env (length (calls w)) |}];
        messages := messages w;
        calls := calls w ++ [ConversationCreate] |}).
Proof.
  intros Hserve Hfresh.
  unfold ChatService.resolveConversation. cbn [truthy].
  unfold bind, prisma.conversation.create.
  rewrite call_served by exact Hserve.
  cbn [Row.id]. rewrite hasConversation_logged, Hfresh. reflexivity.
Qed.

(** X8. Given a valid message, a well-formed identity that names a
    conversation and a store that rejects no call, the reply comes back
    under that same identity; no conversation is created, and exactly two
    rows are added to it, the trimmed message as ["user"] and the reply
    as ["ai"]. *)
Theorem known_session_is_reused m s env w :
  trim m <> "" ->
  String.length (trim m) <= 5000 ->
  s <> "" ->
  uuidValidate env s = true ->
  prisma.hasConversation s w = true ->
  (forall k, length (calls w) <= k -> storeFault env k = None) ->
  exists r w' userRow aiRow turns,
    ChatService.processMessage (Sample.send m (Str s)) env w = (Return r, w')
    /\ ChatResponse.sessionId r = s
    /\ conversations w' = conversations w
    /\ messages w' = messages w ++ [userRow; aiRow]
    /\ (Row.conversationId userRow, Row.sender userRow, Row.text userRow)
       = (s, "user", trim m)
    /\ (Row.conversationId aiRow, Row.sender aiRow, Row.text aiRow)
       = (s, "ai", ChatResponse.reply r)
    /\ calls w'
       = calls w
         ++ [ConversationFindUnique s;
             MessageCreate s "user" (trim m);
             MessageFindMany s;
             ChatCompletionsCreate turns 500 7;
             MessageCreate s "ai" (ChatResponse.reply r)].
Proof.
  intros Hne Hlen Hs Hok Hknown Hserve.
  assert (Hres := resolveConversation_known s env w Hs Hok Hknown
                    (Hserve _ (le_n _))).
  destruct (processValidated_served (trim m) (Str s) env w _ _ Hres)
    as [r [w' [Hrun [Hcid _]]]].
  { intros k Hk. apply Hserve. cbn in Hk. rewrite length_app in Hk. lia. }
  destruct (processValidated_Return_inv _ _ _ _ _ _ Hrun) as [w1 [Hres' [_ Hw']]].
  rewrite Hres in Hres'. injection Hres' as Hcid' Hw1. subst w1.
  rewrite <- Hcid' in Hw'. clear Hcid'.
  exists r, w'. do 3 eexists.
  rewrite (processMessage_valid (Sample.send m (Str s)) env w m eq_refl Hne Hlen).
  unfold tryCatch. cbn [Sample.send ChatMessage.sessionId]. rewrite Hrun.
  split; [reflexivity |]. split; [exact Hcid |].
  rewrite Hw'. cbn [conversations messages calls prisma.logged].
  split; [reflexivity |]. split; [reflexivity |].
  split; [reflexivity |]. split; [reflexivity |].
  rewrite <- app_assoc. reflexivity.
Qed.

Lemma known_session_is_reused_witness :
  let env := Sample.env (Some "Yes.") in
  let w1 := snd (ChatService.processMessage (Sample.send "One" Undefined)
                   env Sample.emptyWorld) in
  exists r w',
    ChatService.processMessage (Sample.send "  Two " (Str (Sample.nthUuid 0))) env w1
    = (Return r, w')
    /\ ChatResponse.sessionId r = Sample.nthUuid 0
    /\ conversations w' = conversations w1
    /\ map Row.text (messages w') = ["One"; "Yes."; "Two"; "Yes."].
Proof.
  intros env w1.
  assert (Hlen : String.length (trim "  Two ") <= 5000)
    by (vm_compute; repeat constructor).
  destruct (known_session_is_reused "  Two " (Sample.nthUuid 0) env w1
              ltac:(discriminate) Hlen ltac:(discriminate) eq_refl eq_refl
              (fun k _ => eq_refl))
    as [r [w' [userRow [aiRow [turns [Hrun [Hcid [Hconv [Hmsgs [Hu [Ha _]]]]]]]]]]].
  exists r, w'. split; [exact Hrun |]. split; [exact Hcid |].
  split; [exact Hconv |].
  rewrite Hmsgs, map_app. cbn [map].
  injection Hu as _ _ ->. injection Ha as _ _ ->.
  assert (Hreply : ChatResponse.reply r = "Yes.").
  { assert (H := f_equal fst Hrun). cbn [fst] in H.
    vm_compute in H. injection H as H. rewrite <- H. reflexivity. }
  rewrite Hreply. reflexivity.
Defined.

(** X9. After a run of the service that returned, fetching the history
    of the returned identity (well formed, the store serving the two
    reads, the rows of the conversation stored by strictly ascending
    stamp) gives what the conversation held before, followed by the
    trimmed message as [user] and the reply as [ai], and nothing else. *)
Theorem history_after_send input env w r w' :
  let cid := ChatResponse.sessionId r in
  let shown := fun row : Row.Message =>
    (if String.eqb (Row.sender row) "user" then user else ai, Row.text row) in
  ChatService.processMessage input env w = (Return r, w') ->
  cid <> "" ->
  uuidValidate env cid = true ->
  storeFault env (length (calls w')) = None ->
  storeFault env (S (length (calls w'))) = None ->
  StronglySorted stampedStrictlyBefore
    (filter (fun row => String.eqb (Row.conversationId row) cid) (messages w')) ->
  exists h w'',
    ChatService.getConversationHistory (Str cid) env w' = (Return h, w'')
    /\ ConversationHistory.sessionId h = cid
    /\ map (fun e => (HistoryEntry.sender e, HistoryEntry.text e))
           (ConversationHistory.messages h)
       = map shown (filter (fun row => String.eqb (Row.conversationId row) cid)
                           (messages w))
         ++ [(user, trim (asString (ChatMessage.message input)));
             (ai, ChatResponse.reply r)].
Proof.
  intros cid shown Hrun Hcid Hok Hfind Hload Hstored.
  apply processMessage_Return_inv in Hrun. destruct Hrun as [m [Hm [_ [_ Hrun]]]].
  apply processValidated_Return_inv in Hrun. destruct Hrun as [w1 [Hres [_ Hw']]].
  apply resolveConversation_Return_summary in Hres.
  destruct Hres as [Hhas [Hmsgs _]]. fold cid in Hw', Hhas.
  assert (Hknown : prisma.hasConversation cid w' = true).
  { rewrite Hw'. exact Hhas. }
  rewrite (getConversationHistory_known cid env w' Hcid Hok Hknown Hfind Hload).
  do 2 eexists. split; [reflexivity |].
  cbn [ConversationHistory.messages ConversationHistory.sessionId].
  split; [reflexivity |].
  rewrite (orderByCreatedAt_fixed _ (strictly_sorted_is_sorted _ Hstored)).
  rewrite map_map. rewrite Hw'. cbn [messages]. rewrite Hmsgs, Hm.
  rewrite filter_app, map_app. cbn [filter Row.conversationId asString].
  rewrite String.eqb_refl. cbn [map].
  f_equal.
  apply map_ext. intros row. rewrite typedEntry_sender. reflexivity.
Qed.

Lemma history_after_send_witness :
  let env := Sample.env (Some "Within 14 days.") in
  let input := Sample.send " What is your return policy? " Undefined in
  let w' := snd (ChatService.processMessage input env Sample.emptyWorld) in
  exists h w'',
    ChatService.getConversationHistory (Str (Sample.nthUuid 0)) env w' = (Return h, w'')
    /\ ConversationHistory.sessionId h = Sample.nthUuid 0
    /\ map (fun e => (HistoryEntry.sender e, HistoryEntry.text e))
           (ConversationHistory.messages h)
       = [(user, "What is your return policy?"); (ai, "Within 14 days.")].
Proof.
  intros env input w'.
  apply (history_after_send input env Sample.emptyWorld
           {| ChatResponse.reply := "Within 14 days.";
              ChatResponse.sessionId := Sample.nthUuid 0 |} w'
           eq_refl ltac:(discriminate) eq_refl eq_refl eq_refl).
  repeat (constructor;
          [| repeat (constructor; [apply Nat.ltb_lt; reflexivity |]); constructor]).
  constructor.
Defined.

(** X10. Nothing is rolled back.  When the store serves a first
    message up to the call to the provider and then rejects the saving of
    the reply, the service throws (the opaque storage failure, or the
    store's error when its text passes the test of the [catch] block),
    the provider has been called, and the new conversation and the row of
    the user's message stay in the store. *)
Theorem rejected_reply_save_leaves_user_row m env w e :
  let n := length (calls w) in
  let cid := uuid env n in
  let outcome := ChatService.processMessage (Sample.send m Undefined) env w in
  trim m <> "" ->
  String.length (trim m) <= 5000 ->
  prisma.hasConversation cid w = false ->
  (forall k, n <= k -> k < n + 4 -> storeFault env k = None) ->
  storeFault env (n + 4) = Some e ->
  fst outcome = Throw (if ChatService.rethrownAsIs e then e
                       else Error ChatService.DATABASE_ERROR)
  /\ conversations (snd outcome)
     = conversations w ++ [{| Row.id := cid; Row.createdAt := clock env n |}]
  /\ exists userRow turns,
       messages (snd outcome) = messages w ++ [userRow]
       /\ (Row.conversationId userRow, Row.sender userRow, Row.text userRow)
          = (cid, "user", trim m)
       /\ calls (snd outcome)
          = calls w
            ++ [ConversationCreate;
                MessageCreate cid "user" (trim m);
                MessageFindMany cid;
                ChatCompletionsCreate turns 500 7;
                MessageCreate cid "ai" (replyOf (completion env (n + 3) turns))].
Proof.
  intros n cid outcome Hne Hlen Hfresh Hserve Hfault.
  assert (Hres := resolveConversation_absent env w
                    (Hserve n (le_n n) ltac:(lia)) Hfresh).
  fold n in Hres. fold cid in Hres.
  destruct (resolveConversation_Return_summary _ _ _ _ _ Hres) as [Hhas _].
  remember outcome as o eqn:Ho. unfold outcome in Ho. clear outcome.
  rewrite (processMessage_valid (Sample.send m Undefined) env w m eq_refl Hne Hlen)
    in Ho.
  unfold tryCatch, ChatService.processValidated in Ho.
  cbn [Sample.send ChatMessage.sessionId] in Ho.
  rewrite (bind_Return _ _ env w _ _ Hres) in Ho.
  unfold bind at 1 in Ho. unfold prisma.message.create at 1 in Ho.
  rewrite call_served in Ho
    by (cbn [calls]; rewrite length_app; cbn [length]; apply Hserve; unfold n; lia).
  rewrite hasConversation_logged, Hhas in Ho. cbn [negb] in Ho.
  unfold bind at 1 in Ho. unfold prisma.message.findMany in Ho.
  rewrite call_served in Ho
    by (cbn [calls prisma.logged]; rewrite !length_app; cbn [length];
        apply Hserve; unfold n; lia).
  unfold bind at 1 in Ho. rewrite generateResponse_spec in Ho.
  unfold bind at 1 in Ho. unfold prisma.message.create in Ho.
  erewrite call_rejected in Ho;
    [| cbn [calls prisma.logged]; rewrite !length_app; cbn [length];
       replace (length (calls w) + 1 + 1 + 1 + 1) with (n + 4) by (unfold n; lia);
       exact Hfault].
  unfold prisma.logged in Ho. cbn [conversations messages calls] in Ho.
  rewrite !length_app in Ho. cbn [length] in Ho.
  replace (length (calls w) + 1 + 1 + 1) with (n + 3) in Ho by (unfold n; lia).
  destruct (ChatService.rethrownAsIs e); unfold throw in Ho; subst o;
    cbn [fst snd conversations messages calls].
  all: split; [reflexivity |]; split; [reflexivity |].
  all: do 2 eexists; split; [reflexivity |]; split; [reflexivity |].
  all: rewrite <- !app_assoc; reflexivity.
Qed.

Lemma rejected_reply_save_witness :
  let fault := Error "Connection terminated unexpectedly" in
  let outcome := ChatService.processMessage (Sample.send "hi" Undefined)
                   (Sample.failingAt 4 fault) Sample.emptyWorld in
  fst outcome = Throw (Error ChatService.DATABASE_ERROR)
  /\ conversations (snd outcome)
     = [{| Row.id := Sample.nthUuid 0; Row.createdAt := 1000 |}]
  /\ exists userRow turns,
       messages (snd outcome) = [userRow]
       /\ (Row.conversationId userRow, Row.sender userRow, Row.text userRow)
          = (Sample.nthUuid 0, "user", "hi")
       /\ calls (snd outcome)
          = [ConversationCreate;
             MessageCreate (Sample.nthUuid 0) "user" "hi";
             MessageFindMany (Sample.nthUuid 0);
             ChatCompletionsCreate turns 500 7;
             MessageCreate (Sample.nthUuid 0) "ai" "We ship to USA, India, and Europe."].
Proof.
  intros fault outcome.
  assert (Hlen : String.length (trim "hi") <= 5000) by (vm_compute; repeat constructor).
  assert (Hserve : forall k, 0 <= k -> k < 0 + 4 ->
                     storeFault (Sample.failingAt 4 fault) k = None).
  { intros k _ Hk. cbn. destruct (Nat.eqb_spec k 4); [lia | reflexivity]. }
  exact (rejected_reply_save_leaves_user_row "hi" (Sample.failingAt 4 fault)
           Sample.emptyWorld fault ltac:(discriminate) Hlen eq_refl Hserve eq_refl).
Defined.

(** ** Refusals at the message route *)

(** When the route's own check of the identity passes, its answer to a
    refusal of the service is the status and the text computed from the
    error thrown. *)
Lemma postMessage_relays_refusal isProduction b env w e w' :
  truthy (Body.sessionId b) = false
  \/ validateSessionId (uuidValidate env) (Body.sessionId b) = Return tt ->
  ChatService.processMessage
    {| ChatMessage.message := Body.message b;
       ChatMessage.sessionId := Body.sessionId b |} env w = (Throw e, w') ->
  chatRoutes.postMessage isProduction (Some b) env w
  = (Return {| Response.status := chatRoutes.messageStatusCode e;
               Response.json := ErrorJson (sanitizeErrorMessage e isProduction) |},
     w').
Proof.
  intros Hid Hrun. unfold chatRoutes.postMessage, tryCatch.
  unfold bind at 1. unfold ret at 1. cbv zeta.
  unfold bind at 1.
  assert (Hpre : (if truthy (Body.sessionId b)
                  then env0 <- ask;;
                       lift (validateSessionId (uuidValidate env0) (Body.sessionId b))
                  else ret tt) env w = (Return tt, w)).
  { destruct Hid as [Hfalsy | Hvalid].
    - rewrite Hfalsy. reflexivity.
    - destruct (truthy (Body.sessionId b)); [| reflexivity].
      unfold bind, ask, lift. rewrite Hvalid. reflexivity. }
  rewrite Hpre. unfold bind. rewrite Hrun. reflexivity.
Qed.

(** X11. A request without usable identity, or with a well-formed one,
    whose message is refused is answered with status 400 and no call
    leaves the process.  The text of the first two refusals is the same
    in production as in development; the refusal for length keeps its
    text in development only, and is answered in production with the
    generic text that names no limit. *)
Theorem message_refusals_answered_400 isProduction b env w :
  let message := Body.message b in
  truthy (Body.sessionId b) = false
  \/ validateSessionId (uuidValidate env) (Body.sessionId b) = Return tt ->
  (truthy message = false \/ isString message = false ->
   chatRoutes.postMessage isProduction (Some b) env w
   = (Return {| Response.status := 400;
                Response.json :=
                  ErrorJson "Message is required and must be a string" |}, w))
  /\ (forall m, message = Str m -> m <> "" -> trim m = "" ->
      chatRoutes.postMessage isProduction (Some b) env w
      = (Return {| Response.status := 400;
                   Response.json := ErrorJson "Message cannot be empty" |}, w))
  /\ (forall m, message = Str m -> 5000 < String.length (trim m) ->
      chatRoutes.postMessage isProduction (Some b) env w
      = (Return {| Response.status := 400;
                   Response.json :=
                     ErrorJson
                       (if isProduction
                        then "An unexpected error occurred. Please try again later."
                        else "Message exceeds maximum length of 5000 characters") |},
         w)).
Proof.
  intros message Hid.
  split; [| split].
  - intros Hbad.
    rewrite (postMessage_relays_refusal isProduction b env w
               (Error "Message is required and must be a string") w Hid).
    + destruct isProduction; reflexivity.
    + unfold ChatService.processMessage. cbn [ChatMessage.message].
      fold message. destruct Hbad as [H | H]; rewrite H; cbn;
        rewrite ?orb_true_r; reflexivity.
  - intros m Hm Hne Hblank.
    rewrite (postMessage_relays_refusal isProduction b env w
               (Error "Message cannot be empty") w Hid).
    + destruct isProduction; reflexivity.
    + unfold ChatService.processMessage. cbn [ChatMessage.message].
      fold message. rewrite Hm. apply truthy_Str in Hne. rewrite Hne.
      cbn [negb orb isString asString]. rewrite Hblank. reflexivity.
  - intros m Hm Hlong.
    rewrite (postMessage_relays_refusal isProduction b env w
               (Error "Message exceeds maximum length of 5000 characters") w Hid).
    + destruct isProduction; reflexivity.
    + unfold ChatService.processMessage. cbn [ChatMessage.message].
      fold message. rewrite Hm.
      assert (Hne : m <> "").
      { intros ->. rewrite trim_empty in Hlong. cbn in Hlong. lia. }
      apply truthy_Str in Hne. rewrite Hne. cbn [negb orb isString asString].
      destruct (String.length (trim m) =? 0) eqn:Hz.
      * apply Nat.eqb_eq in Hz. lia.
      * apply Nat.ltb_lt in Hlong. unfold ChatService.MAX_MESSAGE_LENGTH at 1.
        rewrite Hlong, length_message_text. reflexivity.
Qed.

Lemma message_refusals_answered_400_witness :
  let tooLong := {| Body.message := Str (String "a" (Sample.zeros 5000));
                    Body.sessionId := Undefined |} in
  chatRoutes.postMessage true (Some tooLong) (Sample.env None) Sample.emptyWorld
  = (Return {| Response.status := 400;
               Response.json :=
                 ErrorJson "An unexpected error occurred. Please try again later." |},
     Sample.emptyWorld)
  /\ chatRoutes.postMessage false (Some tooLong) (Sample.env None) Sample.emptyWorld
     = (Return {| Response.status := 400;
                  Response.json :=
                    ErrorJson "Message exceeds maximum length of 5000 characters" |},
        Sample.emptyWorld).
Proof.
  intros tooLong.
  assert (Hlong : 5000 < String.length (trim (String "a" (Sample.zeros 5000))))
    by (vm_compute; repeat constructor).
  split.
  - exact (proj2 (proj2 (message_refusals_answered_400 true tooLong (Sample.env None)
                           Sample.emptyWorld (or_introl eq_refl)))
             _ eq_refl Hlong).
  - exact (proj2 (proj2 (message_refusals_answered_400 false tooLong (Sample.env None)
                           Sample.emptyWorld (or_introl eq_refl)))
             _ eq_refl Hlong).
Defined.

(** X12. An identity that is present and truthy but not a string (a
    number, [true], an object) is refused with "Session ID is required":
    by the route with status 400, by the service once the message has
    passed, in both cases before any call leaves the process. *)
Theorem non_string_session_refused isProduction message sessionId env w :
  truthy sessionId = true ->
  isString sessionId = false ->
  chatRoutes.postMessage isProduction
    (Some {| Body.message := message; Body.sessionId := sessionId |}) env w
  = (Return {| Response.status := 400;
               Response.json := ErrorJson "Session ID is required" |}, w)
  /\ (forall m, message = Str m -> trim m <> "" -> String.length (trim m) <= 5000 ->
      ChatService.processMessage
        {| ChatMessage.message := message; ChatMessage.sessionId := sessionId |} env w
      = (Throw (Error "Session ID is required"), w)).
Proof.
  intros Ht Hs. split.
  - unfold chatRoutes.postMessage, tryCatch, bind, ret, ask, lift, validateSessionId.
    cbn [Body.sessionId]. rewrite Ht, Hs. cbn [negb orb].
    destruct isProduction; reflexivity.
  - intros m Hm Hne Hlen. subst message.
    rewrite (processMessage_valid
               {| ChatMessage.message := Str m; ChatMessage.sessionId := sessionId |}
               env w m eq_refl Hne Hlen).
    unfold tryCatch, ChatService.processValidated, ChatService.resolveConversation.
    cbn [ChatMessage.sessionId]. rewrite Ht.
    unfold bind, ask, lift, validateSessionId. rewrite Ht, Hs. reflexivity.
Qed.

Lemma non_string_session_refused_witness :
  chatRoutes.postMessage true
    (Some {| Body.message := Str "hi"; Body.sessionId := Number 42 |})
    (Sample.env None) Sample.emptyWorld
  = (Return {| Response.status := 400;
               Response.json := ErrorJson "Session ID is required" |},
     Sample.emptyWorld).
Proof.
  exact (proj1 (non_string_session_refused true (Str "hi") (Number 42)
                  (Sample.env None) Sample.emptyWorld eq_refl eq_refl)).
Defined.

(** ** The sanitizer *)

(** X13. In production the sanitizer lets out one of five fixed texts,
    or else the error's own text, and the latter only when that text,
    lower-cased, holds "required" or "cannot be empty" and does not hold
    "not found". *)
Theorem production_text_is_fixed_or_validation e :
  let text := sanitizeErrorMessage e true in
  In text ["Conversation not found";
           "Service configuration error";
           "Rate limit exceeded. Please try again later.";
           "Database error. Please try again later.";
           "An unexpected error occurred. Please try again later."]
  \/ exists original,
       errorMessage e = Some original
       /\ text = original
       /\ includes (toLowerCase original) "not found" = false
       /\ (includes (toLowerCase original) "required" = true
           \/ includes (toLowerCase original) "cannot be empty" = true).
Proof.
  unfold sanitizeErrorMessage.
  destruct (errorMessage e) as [original |]; [| left; cbn; auto 6].
  cbv zeta.
  destruct (includes (toLowerCase original) "not found") eqn:Hnf;
    [left; cbn; auto |].
  destruct (includes (toLowerCase original) "conversation not found");
    [left; cbn; auto |].
  cbn [orb].
  destruct (includes (toLowerCase original) "required") eqn:Hreq.
  { right. exists original. auto. }
  destruct (includes (toLowerCase original) "cannot be empty") eqn:Hemp.
  { right. exists original. auto. }
  cbn [orb].
  destruct (includes (toLowerCase original) "api key"
            || includes (toLowerCase original) "invalid"); [left; cbn; auto |].
  destruct (includes (toLowerCase original) "rate limit"); [left; cbn; auto |].
  destruct (includes (toLowerCase original) "database"
            || includes (toLowerCase original) "prisma"); left; cbn; auto 6.
Qed.

(** ** Empty replies *)

Lemma trimStart_blank s : allWhiteSpace s = true -> trimStart s = "".
Proof.
  induction s as [| c s IH]; cbn [allWhiteSpace trimStart]; [reflexivity |].
  destruct (isWhiteSpace c); [exact IH | discriminate].
Qed.

Lemma trimStart_not_blank s :
  allWhiteSpace s = false ->
  exists c rest, trimStart s = String c rest /\ isWhiteSpace c = false.
Proof.
  induction s as [| c s IH]; cbn [allWhiteSpace trimStart]; [discriminate |].
  destruct (isWhiteSpace c) eqn:Hc; cbn [andb]; [exact IH | eauto].
Qed.

Lemma trimEnd_keeps_head c rest :
  isWhiteSpace c = false -> trimEnd (String c rest) <> "".
Proof.
  intros Hc. cbn [trimEnd]. destruct (trimEnd rest); [rewrite Hc |]; discriminate.
Qed.

(** Trimming leaves nothing exactly of the texts made of white space. *)
Lemma trim_empty_iff s : trim s = "" <-> allWhiteSpace s = true.
Proof.
  unfold trim. destruct (allWhiteSpace s) eqn:Hs.
  - rewrite (trimStart_blank s Hs). split; reflexivity.
  - destruct (trimStart_not_blank s Hs) as [c [rest [-> Hc]]].
    split; [| discriminate].
    intros H. exfalso. exact (trimEnd_keeps_head c rest Hc H).
Qed.

(** X14. The completion step hands back an empty reply in one case
    only: the provider answered, its first choice carries a content that
    is not empty, and that content is white space throughout.  A call the
    provider rejects, or an answer without first choice or content, never
    gives an empty reply. *)
Theorem reply_is_empty_only_for_blank_content history env w :
  let outcome :=
    completion env (length (calls w)) (LLMService.promptMessages history) in
  fst (LLMService.generateResponse history env w) = Return ""
  <-> exists response choice content,
        outcome = Return response
        /\ LLMService.firstChoice response = Some choice
        /\ LLMService.choiceContent choice = Some content
        /\ content <> ""
        /\ allWhiteSpace content = true.
Proof.
  intros outcome. rewrite generateResponse_spec. cbn [fst]. fold outcome.
  split.
  - intros H. injection H as H.
    destruct outcome as [response | e]; [| discriminate H].
    cbn [replyOf] in H. unfold LLMService.readResponse in H.
    destruct (LLMService.firstChoice response) as [choice |] eqn:Hchoice;
      [| discriminate H].
    destruct (LLMService.choiceContent choice) as [content |] eqn:Hcontent;
      [| discriminate H].
    destruct (String.eqb_spec content ""); [discriminate H |].
    exists response, choice, content.
    repeat split; try assumption; try reflexivity.
    apply trim_empty_iff. exact H.
  - intros [response [choice [content [-> [Hchoice [Hcontent [Hne Hblank]]]]]]].
    cbn [replyOf]. unfold LLMService.readResponse.
    rewrite Hchoice, Hcontent.
    apply String.eqb_neq in Hne. rewrite Hne.
    f_equal. apply trim_empty_iff. exact Hblank.
Qed.

(** ** What the client shows *)

Lemma toLowerCase_empty s : toLowerCase s = "" -> s = "".
Proof. destruct s; [reflexivity | discriminate]. Qed.

Lemma messageStatusCode_400_text e :
  chatRoutes.messageStatusCode e = 400 ->
  exists text, errorMessage e = Some text /\ text <> "".
Proof.
  unfold chatRoutes.messageStatusCode.
  destruct (errorMessage e) as [text |]; [| discriminate].
  intros H. exists text. split; [reflexivity |].
  intros ->. cbn in H. discriminate H.
Qed.

Lemma sanitizeErrorMessage_nonempty e isProduction text :
  errorMessage e = Some text -> text <> "" ->
  sanitizeErrorMessage e isProduction <> "".
Proof.
  intros He Hne. unfold sanitizeErrorMessage. rewrite He.
  destruct isProduction; [| exact Hne]. cbv zeta.
  repeat match goal with
         | |- (if ?c then _ else _) <> _ => destruct c
         end; try discriminate; exact Hne.
Qed.

(** X15. Of a history request that failed, the client shows one of two
    fixed texts, whatever the route wrote in the body: "Resource not
    found" under 404 and "Server error. Please try again later." under
    500. *)
Theorem client_text_for_failed_history isProduction s env w resp w' axiosMessage :
  chatRoutes.getHistory isProduction s env w = (Return resp, w') ->
  Response.status resp <> 200 ->
  (Response.status resp = 404
   /\ apiClient.onResponseError (rejection resp axiosMessage)
      = Str "Resource not found")
  \/ (Response.status resp = 500
      /\ apiClient.onResponseError (rejection resp axiosMessage)
         = Str "Server error. Please try again later.").
Proof.
  intros Hrun Hfailed.
  destruct (getHistory_answer isProduction s env w) as [w1 [[h Hh] | [e He]]].
  - rewrite Hh in Hrun. injection Hrun as <- _. exfalso. apply Hfailed. reflexivity.
  - rewrite He in Hrun. injection Hrun as <- _. cbn [Response.status].
    destruct (chatRoutes.historyIsNotFound e); [left | right]; split; reflexivity.
Qed.

Lemma client_text_for_failed_history_witness :
  let run := chatRoutes.getHistory true "not-a-uuid" (Sample.env None)
               Sample.emptyWorld in
  exists resp,
    fst run = Return resp
    /\ Response.json resp = ErrorJson "Service configuration error"
    /\ apiClient.onResponseError (rejection resp "Request failed with status code 404")
       = Str "Resource not found".
Proof.
  intros run.
  exists {| Response.status := 404;
            Response.json := ErrorJson "Service configuration error" |}.
  split; [reflexivity |]. split; [reflexivity |].
  destruct (client_text_for_failed_history true "not-a-uuid" (Sample.env None)
              Sample.emptyWorld
              {| Response.status := 404;
                 Response.json := ErrorJson "Service configuration error" |}
              Sample.emptyWorld "Request failed with status code 404"
              eq_refl ltac:(discriminate)) as [[_ H] | [H _]].
  - exact H.
  - discriminate H.
Defined.

(** X16. Of a message request that failed, the client shows "Server
    error. Please try again later." under 500 and 503, whatever the route
    wrote in the body, and under 400 the text of the body, which is never
    empty. *)
Theorem client_text_for_failed_message isProduction reqBody env w resp w'
        axiosMessage :
  chatRoutes.postMessage isProduction reqBody env w = (Return resp, w') ->
  Response.status resp <> 200 ->
  (In (Response.status resp) [500; 503]
   /\ apiClient.onResponseError (rejection resp axiosMessage)
      = Str "Server error. Please try again later.")
  \/ (Response.status resp = 400
      /\ exists text,
           Response.json resp = ErrorJson text
           /\ text <> ""
           /\ apiClient.onResponseError (rejection resp axiosMessage) = Str text).
Proof.
  intros Hrun Hfailed.
  destruct (postMessage_answer isProduction reqBody env w) as [w1 [[r Hr] | [e He]]].
  - rewrite Hr in Hrun. injection Hrun as <- _. exfalso. apply Hfailed. reflexivity.
  - rewrite He in Hrun. injection Hrun as <- _.
    cbn [Response.status Response.json].
    destruct (messageStatusCode_range e) as [H | [H | [H | []]]].
    + right. split; [symmetry; exact H |].
      exists (sanitizeErrorMessage e isProduction).
      destruct (messageStatusCode_400_text e (eq_sym H)) as [text [Htext Hne]].
      assert (Hout := sanitizeErrorMessage_nonempty e isProduction text Htext Hne).
      split; [reflexivity |]. split; [exact Hout |].
      unfold apiClient.onResponseError, rejection.
      cbn [apiClient.response apiClient.status apiClient.dataError apiClient.message
           Response.status Response.json errorField].
      rewrite <- H. cbn [Nat.eqb Nat.leb].
      unfold orElse. rewrite (proj2 (truthy_Str _) Hout).
      rewrite (proj2 (truthy_Str _) Hout). reflexivity.
    + left. split; [right; left; exact H |].
      unfold apiClient.onResponseError, rejection.
      cbn [apiClient.response apiClient.status Response.status].
      rewrite <- H. reflexivity.
    + left. split; [left; exact H |].
      unfold apiClient.onResponseError, rejection.
      cbn [apiClient.response apiClient.status Response.status].
      rewrite <- H. reflexivity.
Qed.

Lemma client_text_for_failed_message_witness :
  let fault := Error "Connection terminated unexpectedly" in
  let run := chatRoutes.postMessage true
               (Some {| Body.message := Str "hi"; Body.sessionId := Undefined |})
               (Sample.failingAt 0 fault) Sample.emptyWorld in
  exists resp,
    fst run = Return resp
    /\ Response.status resp = 500
    /\ Response.json resp = ErrorJson "Database error. Please try again later."
    /\ apiClient.onResponseError (rejection resp "Request failed with status code 500")
       = Str "Server error. Please try again later.".
Proof.
  intros fault run.
  exists {| Response.status := 500;
            Response.json := ErrorJson "Database error. Please try again later." |}.
  split; [reflexivity |]. split; [reflexivity |]. split; [reflexivity |].
  destruct (client_text_for_failed_message true
              (Some {| Body.message := Str "hi"; Body.sessionId := Undefined |})
              (Sample.failingAt 0 fault) Sample.emptyWorld
              {| Response.status := 500;
                 Response.json := ErrorJson "Database error. Please try again later." |}
              (snd run) "Request failed with status code 500"
              eq_refl ltac:(discriminate)) as [[_ H] | [H _]].
  - exact H.
  - discriminate H.
Defined.

(** ** Store failures are never passed over *)

Lemma findUnique_Return_served id env w r w' :
  prisma.conversation.findUnique id env w = (Return r, w') ->
  storeFault env (length (calls w)) = None
  /\ length (calls w') = S (length (calls w)).
Proof.
  intros H. apply call_Return_inv in H. destruct H as [Hserved H].
  injection H as _ <-. split; [exact Hserved |].
  cbn. rewrite length_app. cbn. lia.
Qed.

Lemma conversation_create_Return_served env w c w' :
  prisma.conversation.create env w = (Return c, w') ->
  storeFault env (length (calls w)) = None
  /\ length (calls w') = S (length (calls w)).
Proof.
  intros H. assert (H' := H). apply call_Return_inv in H. destruct H as [Hserved _].
  apply conversation_create_Return_inv in H'. destruct H' as [_ [_ ->]].
  split; [exact Hserved |]. cbn. rewrite length_app. cbn. lia.
Qed.

Lemma message_create_Return_served conversationId sender text env w m w' :
  prisma.message.create conversationId sender text env w = (Return m, w') ->
  storeFault env (length (calls w)) = None
  /\ length (calls w') = S (length (calls w)).
Proof.
  intros H. assert (H' := H). apply call_Return_inv in H. destruct H as [Hserved _].
  apply message_create_Return_inv in H'. destruct H' as [_ [_ ->]].
  split; [exact Hserved |]. cbn. rewrite length_app. cbn. lia.
Qed.

Lemma findMany_Return_served conversationId env w rows w' :
  prisma.message.findMany conversationId env w = (Return rows, w') ->
  storeFault env (length (calls w)) = None
  /\ length (calls w') = S (length (calls w)).
Proof.
  intros H. apply call_Return_inv in H. destruct H as [Hserved H].
  injection H as _ <-. split; [exact Hserved |].
  cbn. rewrite length_app. cbn. lia.
Qed.

Lemma resolveConversation_Return_served sessionId env w cid w1 :
  ChatService.resolveConversation sessionId env w = (Return cid, w1) ->
  length (calls w) <= length (calls w1)
  /\ forall k, length (calls w) <= k -> k < length (calls w1) ->
               storeFault env k = None.
Proof.
  unfold ChatService.resolveConversation. intros H.
  destruct (truthy sessionId).
  - apply bind_Return_inv in H. destruct H as [env' [w0 [Hask H]]].
    injection Hask as <- <-.
    apply bind_Return_inv in H. destruct H as [[] [w0 [Hval H]]].
    unfold lift in Hval. injection Hval as _ <-.
    apply bind_Return_inv in H. destruct H as [existing [w2 [Hfind H]]].
    apply findUnique_Return_served in Hfind. destruct Hfind as [Hf Hl2].
    destruct existing as [c |].
    + injection H as _ <-. split; [lia |].
      intros k Hlo Hhi. replace k with (length (calls w)) by lia. exact Hf.
    + apply bind_Return_inv in H. destruct H as [c [w3 [Hcreate H]]].
      apply conversation_create_Return_served in Hcreate.
      destruct Hcreate as [Hc Hl3]. injection H as _ <-. split; [lia |].
      intros k Hlo Hhi.
      destruct (Nat.eq_dec k (length (calls w))) as [-> | Hk]; [exact Hf |].
      replace k with (length (calls w2)) by lia. exact Hc.
  - apply bind_Return_inv in H. destruct H as [c [w3 [Hcreate H]]].
    apply conversation_create_Return_served in Hcreate.
    destruct Hcreate as [Hc Hl3]. injection H as _ <-. split; [lia |].
    intros k Hlo Hhi. replace k with (length (calls w)) by lia. exact Hc.
Qed.

(** X17. A run of the service that returned met no failure of the
    store: of all the calls it made, the one to the provider, second to
    last, is the only one whose failure it can survive. *)
Theorem returning_send_met_no_store_failure input env w r w' :
  ChatService.processMessage input env w = (Return r, w') ->
  (exists turns,
     nth_error (calls w') (length (calls w') - 2)
     = Some (ChatCompletionsCreate turns 500 7))
  /\ forall k,
       length (calls w) <= k -> k < length (calls w') ->
       k <> length (calls w') - 2 ->
       storeFault env k = None.
Proof.
  intros H.
  apply processMessage_Return_inv in H. destruct H as [m [_ [_ [_ H]]]].
  assert (Hshape := processValidated_Return_inv _ _ _ _ _ _ H).
  destruct Hshape as [w1' [_ [_ Hw']]].
  unfold ChatService.processValidated in H.
  apply bind_Return_inv in H. destruct H as [cid [w1 [Hres H]]].
  apply resolveConversation_Return_served in Hres. destruct Hres as [Hl1 Hs1].
  apply bind_Return_inv in H. destruct H as [userRow [w2 [Huser H]]].
  apply message_create_Return_served in Huser. destruct Huser as [Hs2 Hl2].
  apply bind_Return_inv in H. destruct H as [history [w3 [Hload H]]].
  apply findMany_Return_served in Hload. destruct Hload as [Hs3 Hl3].
  apply bind_Return_inv in H. destruct H as [aiReply [w4 [Hgen H]]].
  rewrite generateResponse_spec in Hgen. injection Hgen as _ Hw4.
  assert (Hl4 : length (calls w4) = S (length (calls w3))).
  { subst w4. cbn. rewrite length_app. cbn. lia. }
  apply bind_Return_inv in H. destruct H as [aiRow [w5 [Hai H]]].
  apply message_create_Return_served in Hai. destruct Hai as [Hs5 Hl5].
  injection H as _ <-.
  split.
  - rewrite Hw'. cbn [calls]. rewrite length_app. cbn [length].
    replace (length (calls w1') + 4 - 2) with (length (calls w1') + 2) by lia.
    rewrite nth_error_app2 by lia.
    replace (length (calls w1') + 2 - length (calls w1')) with 2 by lia.
    eexists. reflexivity.
  - intros k Hlo Hhi Hk.
    destruct (Nat.lt_ge_cases k (length (calls w1))) as [Hlt | Hge].
    { exact (Hs1 k Hlo Hlt). }
    destruct (Nat.eq_dec k (length (calls w1))) as [-> | H1]; [exact Hs2 |].
    destruct (Nat.eq_dec k (length (calls w2))) as [-> | H2]; [exact Hs3 |].
    destruct (Nat.eq_dec k (length (calls w4))) as [-> | H4]; [exact Hs5 |].
    exfalso. lia.
Qed.

Lemma returning_send_met_no_store_failure_witness :
  let env := Sample.providerDown (Some 429) in
  let run := ChatService.processMessage (Sample.send "hi" Undefined)
               env Sample.emptyWorld in
  fst run = Return {| ChatResponse.reply := LLMService.UNAVAILABLE_FALLBACK;
                      ChatResponse.sessionId := Sample.nthUuid 0 |}
  /\ (exists turns,
        nth_error (calls (snd run)) 3 = Some (ChatCompletionsCreate turns 500 7))
  /\ forall k, k < 5 -> k <> 3 -> storeFault env k = None.
Proof.
  intros env run.
  assert (Hrun : run = (Return {| ChatResponse.reply := LLMService.UNAVAILABLE_FALLBACK;
                                  ChatResponse.sessionId := Sample.nthUuid 0 |},
                        snd run)) by reflexivity.
  destruct (returning_send_met_no_store_failure _ _ _ _ _ Hrun) as [Hcall Hserved].
  split; [reflexivity |]. split; [exact Hcall |].
  intros k Hk Hk3. apply Hserved.
  - apply Nat.le_0_l.
  - exact Hk.
  - exact Hk3.
Defined.

(** ** Failures at the history route *)

(** X18. For a well-formed identity: when it names no conversation the
    history route answers 404 "Conversation not found", in production as
    in development; when the store rejects the look-up with an error
    whose text does not hold "not found", the route answers 500, in
    development with "Failed to fetch conversation history" and in
    production with the generic text, and the store's own text is not
    sent. *)
Theorem history_route_failures isProduction s env w :
  let n := length (calls w) in
  s <> "" ->
  uuidValidate env s = true ->
  (storeFault env n = None ->
   prisma.hasConversation s w = false ->
   chatRoutes.getHistory isProduction s env w
   = (Return {| Response.status := 404;
                Response.json := ErrorJson "Conversation not found" |},
      prisma.logged (ConversationFindUnique s) w))
  /\ (forall e,
        storeFault env n = Some e ->
        (forall text, errorMessage e = Some text -> includes text "not found" = false) ->
        chatRoutes.getHistory isProduction s env w
        = (Return {| Response.status := 500;
                     Response.json :=
                       ErrorJson
                         (if isProduction
                          then "An unexpected error occurred. Please try again later."
                          else "Failed to fetch conversation history") |},
           prisma.logged (ConversationFindUnique s) w)).
Proof.
  intros n Hs Hok.
  assert (Hval := validateSessionId_well_formed (uuidValidate env) s Hs Hok).
  split.
  - intros Hserve Hunknown.
    unfold chatRoutes.getHistory, tryCatch.
    unfold bind at 1. unfold ask at 1.
    unfold bind at 1. unfold lift at 1. rewrite Hval.
    unfold bind at 1. unfold ChatService.getConversationHistory.
    unfold bind at 1. unfold ask.
    unfold bind at 1. unfold lift. rewrite Hval.
    unfold tryCatch, bind, prisma.conversation.findUnique.
    rewrite call_served by exact Hserve.
    cbn [asString prisma.logged conversations].
    rewrite (find_unknown s w Hunknown).
    destruct isProduction; reflexivity.
  - intros e Hfault Hplain.
    unfold chatRoutes.getHistory, tryCatch.
    unfold bind at 1. unfold ask at 1.
    unfold bind at 1. unfold lift at 1. rewrite Hval.
    unfold bind at 1. unfold ChatService.getConversationHistory.
    unfold bind at 1. unfold ask.
    unfold bind at 1. unfold lift. rewrite Hval.
    unfold tryCatch, bind, prisma.conversation.findUnique.
    rewrite (call_rejected _ _ env w e Hfault).
    destruct (errorMessage e) as [text |] eqn:Htext.
    + rewrite (Hplain text eq_refl). destruct isProduction; reflexivity.
    + destruct isProduction; reflexivity.
Qed.

Lemma history_route_failures_witness :
  let fault := Error "Can't reach database server at db.internal:5432" in
  chatRoutes.getHistory true (Sample.nthUuid 7) (Sample.env None) Sample.emptyWorld
  = (Return {| Response.status := 404;
               Response.json := ErrorJson "Conversation not found" |},
     prisma.logged (ConversationFindUnique (Sample.nthUuid 7)) Sample.emptyWorld)
  /\ chatRoutes.getHistory true (Sample.nthUuid 7) (Sample.failingAt 0 fault)
       Sample.emptyWorld
     = (Return {| Response.status := 500;
                  Response.json :=
                    ErrorJson "An unexpected error occurred. Please try again later." |},
        prisma.logged (ConversationFindUnique (Sample.nthUuid 7)) Sample.emptyWorld).
Proof.
  intros fault. split.
  - exact (proj1 (history_route_failures true (Sample.nthUuid 7) (Sample.env None)
                    Sample.emptyWorld ltac:(discriminate) eq_refl)
             eq_refl eq_refl).
  - apply (proj2 (history_route_failures true (Sample.nthUuid 7)
                    (Sample.failingAt 0 fault) Sample.emptyWorld
                    ltac:(discriminate) eq_refl) fault eq_refl).
    intros text Htext. injection Htext as <-. reflexivity.
Defined.
